(** * SQL generation through a hosted LLM: [core/llm_processor.py]

    A shallow embedding of the provider dispatch ([generate_sql]), of the two
    provider variants ([generate_sql_with_openai],
    [generate_sql_with_anthropic]), of the schema rendering
    ([format_schema_for_prompt]) and of the markdown clean-up both variants
    apply to the model's answer, followed by the properties the
    specification states about them. *)

From Stdlib Require Import ZArith NArith List Bool Lia.
From Stdlib Require Import Strings.String Strings.Ascii Numbers.DecimalString.
From stdpp Require Import base option list gmap.

Local Open Scope N_scope.

(** ** Python [str]

    A Python string is a sequence of Unicode code points.  Literals of the
    source are ASCII and are written with [lit]. *)

Module PyStr.

Definition char : Type := N.
Definition str : Type := list N.

Definition lit (s : string) : str :=
  List.map N_of_ascii (list_ascii_of_string s).

(** The characters the source needs by number: line feed and the double
    quote. *)
Definition LF : char := 10.
Definition DQUOTE : char := 34.
Definition nl : str := [LF].

(** [s.startswith(p)] *)
Fixpoint startswith (s p : str) {struct p} : bool :=
  match p, s with
  | [], _ => true
  | _ :: _, [] => false
  | a :: p', b :: s' => (a =? b) && startswith s' p'
  end.

(** [s.endswith(p)] *)
Definition endswith (s p : str) : bool :=
  startswith (rev s) (rev p).

(** [s[n:]] and [s[:-n]] for a non-negative literal [n]. *)
Definition slice_from (n : nat) (s : str) : str := drop n s.
Definition slice_to_minus (n : nat) (s : str) : str :=
  take (length s - n) s.

(** [c.isspace()]: the code points CPython's [_PyUnicode_IsWhitespace]
    accepts. *)
Definition isspace (c : char) : bool :=
  ((9 <=? c) && (c <=? 13))
  || ((28 <=? c) && (c <=? 32))
  || (c =? 133) || (c =? 160) || (c =? 5760)
  || ((8192 <=? c) && (c <=? 8202))
  || (c =? 8232) || (c =? 8233) || (c =? 8239) || (c =? 8287)
  || (c =? 12288).

(** [s.lstrip()], [s.rstrip()], [s.strip()] *)
Fixpoint lstrip (s : str) : str :=
  match s with
  | [] => []
  | c :: s' => if isspace c then lstrip s' else s
  end.

Definition rstrip (s : str) : str := rev (lstrip (rev s)).

Definition strip (s : str) : str := rstrip (lstrip s).

(** A string that does not begin with white space; [lstrip] leaves exactly
    these unchanged. *)
Definition lstripped (s : str) : Prop :=
  match s with
  | [] => True
  | c :: _ => isspace c = false
  end.

(** [sep.join(parts)] *)
Fixpoint join (sep : str) (parts : list str) : str :=
  match parts with
  | [] => []
  | [p] => p
  | p :: rest => p ++ sep ++ join sep rest
  end.

(** [s.split("\n")]: the lines of [s]; never empty, and [""] has the one
    line [""]. *)
Fixpoint split_lines (s : str) : list str :=
  match s with
  | [] => [[]]
  | c :: s' =>
      if c =? LF then [] :: split_lines s'
      else match split_lines s' with
           | l :: ls => (c :: l) :: ls
           | [] => [[c]]
           end
  end.

(** [str(n)] for an [int]: decimal digits, a leading [-] when negative.
    This is the text of [n] whenever the interpreter prints it; CPython
    refuses to print an integer of more than [sys.get_int_max_str_digits()]
    digits (4300 unless configured otherwise) and raises [ValueError]
    instead, so a property of a text that holds a printed integer is stated
    for integers within that limit ([within_str_limit] below). *)
Definition str_of_int (n : Z) : str :=
  lit (NilZero.string_of_int (Z.to_int n)).

(** [x in s] for a substring [x]. *)
Fixpoint contains (s x : str) : bool :=
  startswith s x ||
  match s with
  | [] => false
  | _ :: s' => contains s' x
  end.

End PyStr.
Import PyStr.

(** ** Data model

    [schema_info] is a dictionary of which only the key ['tables'] is read;
    the key may be missing.  A dictionary is iterated in insertion order, so
    the two mappings are association lists in that order. *)

Record TableInfo : Type := {
  columns : list (str * str);
  row_count : Z
}.

Record SchemaInfo : Type := {
  tables : option (list (str * TableInfo))
}.

Record QueryRequest : Type := {
  query : str;
  llm_provider : str
}.

(** ** [format_schema_for_prompt]

    The source grows the list [lines] with [append] inside two nested [for]
    loops; each loop is a left fold whose accumulator is the list so far. *)

Definition append (lines : list str) (x : str) : list str := lines ++ [x].

Definition format_columns (lines : list str) (cols : list (str * str))
  : list str :=
  fold_left
    (fun lines col =>
       let '(col_name, col_type) := col in
       append lines (lit "  - " ++ col_name ++ lit " (" ++ col_type ++ lit ")"))
    cols lines.

Definition format_table (lines : list str) (entry : str * TableInfo)
  : list str :=
  let '(table_name, table_info) := entry in
  let lines := append lines (lit "Table: " ++ table_name) in
  let lines := append lines (lit "Columns:") in
  let lines := format_columns lines (columns table_info) in
  let lines := append lines (lit "Row count: " ++ str_of_int (row_count table_info)) in
  append lines [].

(** [schema_info.get('tables', {})] *)
Definition get_tables (schema_info : SchemaInfo) : list (str * TableInfo) :=
  default [] (tables schema_info).

Definition schema_lines (schema_info : SchemaInfo) : list str :=
  fold_left format_table (get_tables schema_info) [].

Definition format_schema_for_prompt (schema_info : SchemaInfo) : str :=
  join nl (schema_lines schema_info).

(** ** Markdown clean-up

    Both variants end with the same three checks and a final [strip()]
    (the lines under the comment "Clean up the SQL (remove markdown if
    present)").  Each [if] is a stage of its own. *)

Definition FENCE_SQL : str := lit "```sql".
Definition FENCE : str := lit "```".

Definition strip_tagged_opening (sql : str) : str :=
  if startswith sql FENCE_SQL then slice_from 6 sql else sql.

Definition strip_generic_opening (sql : str) : str :=
  if startswith sql FENCE then slice_from 3 sql else sql.

Definition strip_closing (sql : str) : str :=
  if endswith sql FENCE then slice_to_minus 3 sql else sql.

(** The two opening checks, in the order of the source. *)
Definition strip_opening (sql : str) : str :=
  strip_generic_opening (strip_tagged_opening sql).

Definition clean_up_sql (sql : str) : str :=
  let sql := strip_tagged_opening sql in
  let sql := strip_generic_opening sql in
  let sql := strip_closing sql in
  strip sql.

(** ** Environment

    [os.environ] is a finite map from names to values; a value counts in a
    condition when it is present and not the empty string. *)

Abbreviation environ := (gmap str str).

Definition truthy (v : option str) : bool :=
  match v with
  | Some (_ :: _) => true
  | _ => false
  end.

(** Python's [a or b] and [a and b] on values that may be [None]. *)
Definition py_or (a b : option str) : option str := if truthy a then a else b.
Definition py_and (a b : option str) : option str := if truthy a then b else a.

(** The value of a variable that passed a truthiness test. *)
Definition value (v : option str) : str := default [] v.

Definition has_bedrock_credentials (env : environ) : bool :=
  let aws_access_key :=
    py_or (env !! lit "AWS_ACCESS_KEY_ID") (env !! lit "AWS_ACCESS_KEY") in
  let aws_secret_key := env !! lit "AWS_SECRET_ACCESS_KEY" in
  truthy (py_and aws_access_key aws_secret_key).

(** ** Exceptions, provider calls and their trace

    A computation either returns a value or raises an exception, and records
    every call it makes to a provider SDK. *)

Inductive provider : Type := OpenAI | Anthropic.

Inductive exn_class : Type :=
  | ValueError
  | Exception
  | SdkError.   (* whatever class an SDK raises; a subclass of Exception *)

Record exn : Type := {
  exn_kind : exn_class;
  exn_str : str        (* [str(e)] *)
}.

Inductive event : Type :=
  | NewOpenAI (api_key : str)
  | ChatCompletionsCreate (api_key model system user : str) (max_tokens : Z)
  | NewAnthropicBedrock (aws_access_key aws_secret_key aws_region : str)
  | MessagesCreate (aws_access_key aws_secret_key aws_region model user : str)
                   (max_tokens : Z).

Definition event_provider (ev : event) : provider :=
  match ev with
  | NewOpenAI _ | ChatCompletionsCreate _ _ _ _ _ => OpenAI
  | NewAnthropicBedrock _ _ _ | MessagesCreate _ _ _ _ _ _ => Anthropic
  end.

Definition M (A : Type) : Type := list event * (exn + A).

Definition ret {A} (a : A) : M A := ([], inr a).
Definition raise {A} (cls : exn_class) (msg : str) : M A :=
  ([], inl {| exn_kind := cls; exn_str := msg |}).

Definition bind {A B} (m : M A) (f : A -> M B) : M B :=
  match m with
  | (tr, inl e) => (tr, inl e)
  | (tr, inr a) => let '(tr', r) := f a in (tr ++ tr', r)
  end.

(** [try: m  except Exception as e: handler e] *)
Definition try_except {A} (m : M A) (handler : exn -> M A) : M A :=
  match m with
  | (tr, inl e) => let '(tr', r) := handler e in (tr ++ tr', r)
  | (tr, inr a) => (tr, inr a)
  end.

Declare Scope py_scope.
Delimit Scope py_scope with py.
Notation "x <- m ;; k" := (bind m (fun x => k))
  (at level 100, m at next level, right associativity) : py_scope.

Definition trace {A} (m : M A) : list event := fst m.
Definition outcome {A} (m : M A) : exn + A := snd m.

(** What an SDK answers: a value, or an exception with the text [str(e)]. *)
Inductive answer (A : Type) : Type :=
  | Returned (a : A)
  | Raised (msg : str).
Arguments Returned {A} a.
Arguments Raised {A} msg.

(** One SDK call: it is recorded, then it returns or raises. *)
Definition call {A} (ev : event) (r : answer A) : M A :=
  ([ev], match r with
         | Returned a => inr a
         | Raised msg => inl {| exn_kind := SdkError; exn_str := msg |}
         end).

(** The two SDKs, as far as the module uses them.  A client is the
    credentials it was built from; a completion is the text of the first
    choice, respectively of the first content block. *)
Record SDK : Type := {
  openai_new : str -> answer unit;
  chat_completions_create : str -> str -> str -> str -> Z -> answer str;
  bedrock_new : str -> str -> str -> answer unit;
  messages_create : str -> str -> str -> str -> str -> Z -> answer str
}.

Definition DEFAULT_BEDROCK_MODEL : str :=
  lit "us.anthropic.claude-3-haiku-20240307-v1:0".

(** The f-string both variants build, line by line. *)
Definition sql_prompt (schema_description query_text : str) : str :=
  join nl
    [ lit "Given the following database schema:";
      [];
      schema_description;
      [];
      lit "Convert this natural language query to SQL: "
        ++ [DQUOTE] ++ query_text ++ [DQUOTE];
      [];
      lit "Rules:";
      lit "- Return ONLY the SQL query, no explanations";
      lit "- Use proper SQLite syntax";
      lit "- Handle date/time queries appropriately (e.g., "
        ++ [DQUOTE] ++ lit "last week" ++ [DQUOTE]
        ++ lit " = date('now', '-7 days'))";
      lit "- Be careful with column names and table names";
      lit "- If the query is ambiguous, make reasonable assumptions";
      [];
      lit "SQL Query:" ].

Section Providers.

Variable sdk : SDK.

Local Open Scope py_scope.

(** The body of the [try] block of [generate_sql_with_openai]. *)
Definition openai_body (env : environ) (query_text : str)
    (schema_info : SchemaInfo) : M str :=
  let api_key := env !! lit "OPENAI_API_KEY" in
  if negb (truthy api_key) then
    raise ValueError (lit "OPENAI_API_KEY environment variable not set")
  else
    let api_key := value api_key in
    _ <- call (NewOpenAI api_key) (openai_new sdk api_key) ;;
    let schema_description := format_schema_for_prompt schema_info in
    let prompt := sql_prompt schema_description query_text in
    let model := lit "gpt-4.1-mini" in
    let system :=
      lit "You are a SQL expert. Convert natural language to SQL queries." in
    content <- call (ChatCompletionsCreate api_key model system prompt 500)
                 (chat_completions_create sdk api_key model system prompt 500) ;;
    let sql := strip content in
    ret (clean_up_sql sql).

Definition generate_sql_with_openai (env : environ) (query_text : str)
    (schema_info : SchemaInfo) : M str :=
  try_except (openai_body env query_text schema_info)
    (fun e =>
       raise Exception (lit "Error generating SQL with OpenAI: " ++ exn_str e)).

(** The body of the [try] block of [generate_sql_with_anthropic]. *)
Definition anthropic_body (env : environ) (query_text : str)
    (schema_info : SchemaInfo) : M str :=
  let aws_region := default (lit "eu-west-3") (env !! lit "AWS_REGION") in
  let aws_access_key :=
    py_or (env !! lit "AWS_ACCESS_KEY_ID") (env !! lit "AWS_ACCESS_KEY") in
  let aws_secret_key := env !! lit "AWS_SECRET_ACCESS_KEY" in
  if negb (truthy aws_access_key) || negb (truthy aws_secret_key) then
    raise ValueError
      (lit "AWS credentials not set (AWS_ACCESS_KEY_ID/AWS_ACCESS_KEY and AWS_SECRET_ACCESS_KEY)")
  else
    let access := value aws_access_key in
    let secret := value aws_secret_key in
    _ <- call (NewAnthropicBedrock access secret aws_region)
           (bedrock_new sdk access secret aws_region) ;;
    let schema_description := format_schema_for_prompt schema_info in
    let prompt := sql_prompt schema_description query_text in
    let model := default DEFAULT_BEDROCK_MODEL (env !! lit "ANTHROPIC_MODEL") in
    content <- call (MessagesCreate access secret aws_region model prompt 500)
                 (messages_create sdk access secret aws_region model prompt 500) ;;
    let sql := strip content in
    ret (clean_up_sql sql).

Definition generate_sql_with_anthropic (env : environ) (query_text : str)
    (schema_info : SchemaInfo) : M str :=
  try_except (anthropic_body env query_text schema_info)
    (fun e =>
       raise Exception (lit "Error generating SQL with Anthropic: " ++ exn_str e)).

Definition generate_sql (env : environ) (request : QueryRequest)
    (schema_info : SchemaInfo) : M str :=
  let openai_key := env !! lit "OPENAI_API_KEY" in
  let bedrock_configured := has_bedrock_credentials env in
  if truthy openai_key then
    generate_sql_with_openai env (query request) schema_info
  else if bedrock_configured then
    generate_sql_with_anthropic env (query request) schema_info
  else if bool_decide (llm_provider request = lit "openai") then
    generate_sql_with_openai env (query request) schema_info
  else
    generate_sql_with_anthropic env (query request) schema_info.

End Providers.

(** ** Vocabulary of the specification *)

(** The lines one table contributes to [lines]. *)
Definition column_line (col : str * str) : str :=
  lit "  - " ++ fst col ++ lit " (" ++ snd col ++ lit ")".

Definition table_block (entry : str * TableInfo) : list str :=
  [lit "Table: " ++ fst entry; lit "Columns:"]
  ++ List.map column_line (columns (snd entry))
  ++ [lit "Row count: " ++ str_of_int (row_count (snd entry)); []].

(** The block as the specification words it: the header, one line per
    column, the row count, a blank line, and nothing else. *)
Definition spec_table_block (entry : str * TableInfo) : list str :=
  [lit "Table: " ++ fst entry]
  ++ List.map column_line (columns (snd entry))
  ++ [lit "Row count: " ++ str_of_int (row_count (snd entry)); []].

Definition spec_format_schema (schema_info : SchemaInfo) : str :=
  join nl (flat_map spec_table_block (get_tables schema_info)).

(** How many of the given lines start with [p], and how many lines of a
    string do. *)
Definition count_starting (p : str) (ls : list str) : nat :=
  length (List.filter (fun l => startswith l p) ls).

Definition count_lines (p : str) (s : str) : nat :=
  count_starting p (split_lines s).

(** A name or type that holds no line feed, and a schema all of whose
    table names, column names and column types are such. *)
Definition single_line (s : str) : bool :=
  forallb (fun c => negb (c =? LF)) s.

Definition table_single_line (entry : str * TableInfo) : bool :=
  single_line (fst entry)
  && forallb (fun col => single_line (fst col) && single_line (snd col))
       (columns (snd entry)).

Definition schema_single_line (schema_info : SchemaInfo) : bool :=
  forallb table_single_line (get_tables schema_info).

(** The credentials as the specification names them: the OpenAI key is set
    when [OPENAI_API_KEY] has a non-empty value; the Bedrock pair is
    present when [AWS_ACCESS_KEY_ID] or [AWS_ACCESS_KEY] has one and
    [AWS_SECRET_ACCESS_KEY] has one too. *)
Definition openai_key_set (env : environ) : bool :=
  truthy (env !! lit "OPENAI_API_KEY").

Definition bedrock_pair_present (env : environ) : bool :=
  (truthy (env !! lit "AWS_ACCESS_KEY_ID")
   || truthy (env !! lit "AWS_ACCESS_KEY"))
  && truthy (env !! lit "AWS_SECRET_ACCESS_KEY").

(** The provider [generate_sql] hands the request to, read off its chain of
    conditions. *)
Definition selected_provider (env : environ) (request : QueryRequest)
  : provider :=
  if truthy (env !! lit "OPENAI_API_KEY") then OpenAI
  else if has_bedrock_credentials env then Anthropic
  else if bool_decide (llm_provider request = lit "openai") then OpenAI
  else Anthropic.

Definition provider_name (p : provider) : str :=
  match p with
  | OpenAI => lit "OpenAI"
  | Anthropic => lit "Anthropic"
  end.

Definition provider_body (sdk : SDK) (p : provider)
  : environ -> str -> SchemaInfo -> M str :=
  match p with
  | OpenAI => openai_body sdk
  | Anthropic => anthropic_body sdk
  end.

Definition provider_variant (sdk : SDK) (p : provider)
  : environ -> str -> SchemaInfo -> M str :=
  match p with
  | OpenAI => generate_sql_with_openai sdk
  | Anthropic => generate_sql_with_anthropic sdk
  end.

(** Every recorded call went to provider [p]. *)
Definition only_calls (p : provider) (tr : list event) : Prop :=
  Forall (fun ev => event_provider ev = p) tr.

(** The message of the exception a variant raises for the error text
    [text] of its provider [p]. *)
Definition wrapped_message (p : provider) (text : str) : str :=
  lit "Error generating SQL with " ++ provider_name p ++ lit ": " ++ text.

(** A string that does not end with white space. *)
Definition rstripped (s : str) : Prop := lstripped (rev s).

(** A completion request, as opposed to the construction of a client. *)
Definition is_request (ev : event) : bool :=
  match ev with
  | ChatCompletionsCreate _ _ _ _ _ | MessagesCreate _ _ _ _ _ _ => true
  | NewOpenAI _ | NewAnthropicBedrock _ _ _ => false
  end.

(** Reading a rendered schema back: the text after ["Table: "] on the lines
    that start with it, and the text after ["Row count: "] likewise. *)
Definition lines_after (p : str) (text : str) : list str :=
  List.map (slice_from (length p))
    (List.filter (fun l => startswith l p) (split_lines text)).

Definition header_names (text : str) : list str :=
  lines_after (lit "Table: ") text.

Definition rendered_row_counts (text : str) : list str :=
  lines_after (lit "Row count: ") text.

(** The access key the Anthropic variant uses: [AWS_ACCESS_KEY_ID] when it
    has a non-empty value, [AWS_ACCESS_KEY] otherwise. *)
Definition bedrock_access_key (env : environ) : str :=
  if truthy (env !! lit "AWS_ACCESS_KEY_ID")
  then value (env !! lit "AWS_ACCESS_KEY_ID")
  else value (env !! lit "AWS_ACCESS_KEY").

(** The calls a body makes: none, the construction of a client, or that
    construction followed by one completion request. *)
Definition single_attempt (tr : list event) : Prop :=
  tr = []
  \/ (exists c, tr = [c] /\ is_request c = false)
  \/ (exists c r, tr = [c; r] /\ is_request c = false /\ is_request r = true).

(** The construction of the client of provider [p]: the call as it is
    recorded, and what the SDK answers to it. *)
Definition client_event (env : environ) (p : provider) : event :=
  match p with
  | OpenAI => NewOpenAI (value (env !! lit "OPENAI_API_KEY"))
  | Anthropic =>
      NewAnthropicBedrock (bedrock_access_key env)
        (value (env !! lit "AWS_SECRET_ACCESS_KEY"))
        (default (lit "eu-west-3") (env !! lit "AWS_REGION"))
  end.

Definition client_answer (sdk : SDK) (env : environ) (p : provider)
  : answer unit :=
  match p with
  | OpenAI => openai_new sdk (value (env !! lit "OPENAI_API_KEY"))
  | Anthropic =>
      bedrock_new sdk (bedrock_access_key env)
        (value (env !! lit "AWS_SECRET_ACCESS_KEY"))
        (default (lit "eu-west-3") (env !! lit "AWS_REGION"))
  end.


(** The variables the module reads.  The four credentials are tested for
    truth, so that an empty value is as good as none; the region and the
    model are read with a default, so that any value set is used. *)
Definition credential_variables : list str :=
  [lit "OPENAI_API_KEY"; lit "AWS_ACCESS_KEY_ID"; lit "AWS_ACCESS_KEY";
   lit "AWS_SECRET_ACCESS_KEY"].

Definition defaulted_variables : list str :=
  [lit "AWS_REGION"; lit "ANTHROPIC_MODEL"].

Definition credential (env : environ) (k : str) : option str :=
  if truthy (env !! k) then env !! k else None.

(** Two environments the module cannot tell apart. *)
Definition same_settings (env1 env2 : environ) : Prop :=
  (forall k, In k credential_variables -> credential env1 k = credential env2 k)
  /\ (forall k, In k defaulted_variables -> env1 !! k = env2 !! k).

(** The interpreter's default limit on the digits of an integer it converts
    to text, the number of decimal digits of an integer (its sign apart),
    and the schemas all of whose row counts are within the limit: for
    these, and only for these, every [f"Row count: {...}"] is evaluated
    without an exception. *)
Definition int_max_str_digits : nat := 4300.

Definition str_digits (n : Z) : nat := length (str_of_int (Z.abs n)).

Definition within_str_limit (n : Z) : bool :=
  Nat.leb (str_digits n) int_max_str_digits.

Definition row_counts_printable (schema_info : SchemaInfo) : bool :=
  forallb (fun entry => within_str_limit (row_count (snd entry)))
    (get_tables schema_info).

(** The messages of the two credential checks. *)
Definition OPENAI_KEY_NOT_SET : str :=
  lit "OPENAI_API_KEY environment variable not set".

Definition AWS_CREDENTIALS_NOT_SET : str :=
  lit "AWS credentials not set (AWS_ACCESS_KEY_ID/AWS_ACCESS_KEY and AWS_SECRET_ACCESS_KEY)".

(** The credential check of the variant of provider [p], and the text of
    the [ValueError] it raises when the check fails. *)
Definition credentials_present (env : environ) (p : provider) : bool :=
  match p with
  | OpenAI => openai_key_set env
  | Anthropic => bedrock_pair_present env
  end.

Definition missing_credentials_message (p : provider) : str :=
  match p with
  | OpenAI => OPENAI_KEY_NOT_SET
  | Anthropic => AWS_CREDENTIALS_NOT_SET
  end.

(** The completion request of provider [p] for a request and a schema: the
    call as it is recorded, and what the SDK answers to it. *)
Definition request_event (env : environ) (request : QueryRequest)
    (schema_info : SchemaInfo) (p : provider) : event :=
  let prompt :=
    sql_prompt (format_schema_for_prompt schema_info) (query request) in
  match p with
  | OpenAI =>
      ChatCompletionsCreate (value (env !! lit "OPENAI_API_KEY"))
        (lit "gpt-4.1-mini")
        (lit "You are a SQL expert. Convert natural language to SQL queries.")
        prompt 500
  | Anthropic =>
      MessagesCreate (bedrock_access_key env)
        (value (env !! lit "AWS_SECRET_ACCESS_KEY"))
        (default (lit "eu-west-3") (env !! lit "AWS_REGION"))
        (default DEFAULT_BEDROCK_MODEL (env !! lit "ANTHROPIC_MODEL"))
        prompt 500
  end.

Definition request_answer (sdk : SDK) (env : environ) (request : QueryRequest)
    (schema_info : SchemaInfo) (p : provider) : answer str :=
  let prompt :=
    sql_prompt (format_schema_for_prompt schema_info) (query request) in
  match p with
  | OpenAI =>
      chat_completions_create sdk (value (env !! lit "OPENAI_API_KEY"))
        (lit "gpt-4.1-mini")
        (lit "You are a SQL expert. Convert natural language to SQL queries.")
        prompt 500
  | Anthropic =>
      messages_create sdk (bedrock_access_key env)
        (value (env !! lit "AWS_SECRET_ACCESS_KEY"))
        (default (lit "eu-west-3") (env !! lit "AWS_REGION"))
        (default DEFAULT_BEDROCK_MODEL (env !! lit "ANTHROPIC_MODEL"))
        prompt 500
  end.

(** A run that made the calls [tr] and then raised the [Exception] that
    wraps the error text [text] with the name of provider [p]. *)
Definition raises_wrapped (run : M str) (p : provider) (tr : list event)
    (text : str) : Prop :=
  run = (tr, inl {| exn_kind := Exception;
                    exn_str := wrapped_message p text |}).

(** ** Sample inputs *)

(** Two worlds: one where both SDKs answer, one where they fail. *)
Definition sdk_echo : SDK :=
  {| openai_new := fun _ => Returned tt;
     chat_completions_create := fun _ _ _ _ _ => Returned (lit "SELECT 1");
     bedrock_new := fun _ _ _ => Returned tt;
     messages_create := fun _ _ _ _ _ _ => Returned (lit "SELECT 2") |}.

Definition sdk_fenced : SDK :=
  {| openai_new := fun _ => Returned tt;
     chat_completions_create := fun _ _ _ _ _ =>
       Returned (nl ++ lit "```sql" ++ nl ++ lit "SELECT 1 " ++ nl ++ lit "```  ");
     bedrock_new := fun _ _ _ => Returned tt;
     messages_create := fun _ _ _ _ _ _ => Returned (lit "SELECT 2") |}.

Definition sdk_failing : SDK :=
  {| openai_new := fun _ => Returned tt;
     chat_completions_create := fun _ _ _ _ _ => Raised (lit "API Error");
     bedrock_new := fun _ _ _ => Raised (lit "no region");
     messages_create := fun _ _ _ _ _ _ => Returned (lit "SELECT 2") |}.

Definition env_both : environ :=
  {[ lit "OPENAI_API_KEY" := lit "openai-key";
     lit "AWS_ACCESS_KEY_ID" := lit "test-access-key";
     lit "AWS_SECRET_ACCESS_KEY" := lit "test-secret-key" ]}.

Definition env_bedrock : environ :=
  {[ lit "AWS_ACCESS_KEY" := lit "test-access-key";
     lit "AWS_SECRET_ACCESS_KEY" := lit "test-secret-key";
     lit "AWS_REGION" := lit "eu-west-3" ]}.

Definition env_openai : environ :=
  {[ lit "OPENAI_API_KEY" := lit "openai-key" ]}.

Definition request_for (preference : string) : QueryRequest :=
  {| query := lit "Show all users"; llm_provider := lit preference |}.

Definition no_tables : SchemaInfo := {| tables := Some [] |}.

Definition env_two_access_keys : environ :=
  {[ lit "AWS_ACCESS_KEY_ID" := lit "id-key";
     lit "AWS_ACCESS_KEY" := lit "plain-key";
     lit "AWS_SECRET_ACCESS_KEY" := lit "secret";
     lit "ANTHROPIC_MODEL" := lit "us.anthropic.claude-3-opus-20240229-v1:0" ]}.

Definition users_table : str * TableInfo :=
  (lit "users",
   {| columns := [(lit "id", lit "INTEGER"); (lit "name", lit "TEXT")];
      row_count := 100 |}).

Definition products_table : str * TableInfo :=
  (lit "products",
   {| columns := [(lit "price", lit "REAL")]; row_count := 50 |}).

Definition two_tables : SchemaInfo :=
  {| tables := Some [users_table; products_table] |}.

Definition env_openai_and_more : environ :=
  {[ lit "OPENAI_API_KEY" := lit "openai-key";
     lit "AWS_SECRET_ACCESS_KEY" := [];
     lit "HOME" := lit "/root" ]}.

(** ** Python strings: prefixes, lengths, stripping *)

Lemma startswith_true (s p : str) :
  startswith s p = true <-> exists r, s = p ++ r.
Proof.
  revert s; induction p as [|a p IH]; intros s; simpl.
  - split; [intros _; now exists s | reflexivity].
  - destruct s as [|b s].
    + split; [discriminate | intros [r Hr]; discriminate].
    + rewrite andb_true_iff, N.eqb_eq, IH. split.
      * intros [-> [r ->]]. now exists r.
      * intros [r Hr]. injection Hr as -> ->. split; [reflexivity | now exists r].
Qed.

Lemma startswith_app (p r : str) : startswith (p ++ r) p = true.
Proof. apply startswith_true. now exists r. Qed.

Lemma startswith_shorter (s p q : str) :
  startswith s (p ++ q) = true -> startswith s p = true.
Proof.
  rewrite !startswith_true. intros [r ->]. exists (q ++ r).
  now rewrite app_assoc.
Qed.

Lemma startswith_length (s p : str) :
  startswith s p = true -> (length p <= length s)%nat.
Proof.
  rewrite startswith_true. intros [r ->]. rewrite length_app. lia.
Qed.

Lemma endswith_length (s p : str) :
  endswith s p = true -> (length p <= length s)%nat.
Proof.
  unfold endswith. intros H. apply startswith_length in H.
  now rewrite !length_rev in H.
Qed.

Lemma lstrip_length (s : str) : (length (lstrip s) <= length s)%nat.
Proof.
  induction s as [|c s IH]; simpl; [lia |].
  destruct (isspace c); simpl; lia.
Qed.

Lemma rstrip_length (s : str) : (length (rstrip s) <= length s)%nat.
Proof.
  unfold rstrip. rewrite length_rev.
  etransitivity; [apply lstrip_length | now rewrite length_rev].
Qed.

Lemma strip_length (s : str) : (length (strip s) <= length s)%nat.
Proof.
  unfold strip. etransitivity; [apply rstrip_length | apply lstrip_length].
Qed.

(** [lstrip] removes a run of white space from the front. *)
Lemma lstrip_suffix (s : str) : exists ws, s = ws ++ lstrip s.
Proof.
  induction s as [|c s [ws IH]]; simpl.
  - now exists [].
  - destruct (isspace c).
    + exists (c :: ws). simpl. now f_equal.
    + now exists [].
Qed.

Lemma rstrip_prefix (s : str) : exists ws, s = rstrip s ++ ws.
Proof.
  unfold rstrip. destruct (lstrip_suffix (rev s)) as [ws H].
  exists (rev ws). rewrite <- rev_app_distr, <- H. now rewrite rev_involutive.
Qed.

Lemma lstrip_lstripped (s : str) : lstripped (lstrip s).
Proof.
  induction s as [|c s IH]; simpl; [exact I |].
  destruct (isspace c) eqn:E; [exact IH | exact E].
Qed.

Lemma lstripped_fixed (s : str) : lstripped s -> lstrip s = s.
Proof. destruct s as [|c s]; simpl; [reflexivity | now intros ->]. Qed.

Lemma lstripped_prefix (p q : str) : lstripped (p ++ q) -> lstripped p.
Proof. destruct p; simpl; [constructor | trivial]. Qed.

Lemma rstrip_lstripped (s : str) : lstripped s -> lstripped (rstrip s).
Proof.
  intros H. destruct (rstrip_prefix s) as [ws E].
  rewrite E in H. now apply lstripped_prefix in H.
Qed.

Lemma rstrip_idem (s : str) : rstrip (rstrip s) = rstrip s.
Proof.
  unfold rstrip. rewrite rev_involutive.
  now rewrite (lstripped_fixed _ (lstrip_lstripped _)).
Qed.

Lemma strip_idem (s : str) : strip (strip s) = strip s.
Proof.
  unfold strip.
  rewrite (lstripped_fixed (rstrip (lstrip s))).
  - apply rstrip_idem.
  - apply rstrip_lstripped, lstrip_lstripped.
Qed.

(** ** The stages of the clean-up never lengthen their input *)

Lemma strip_tagged_opening_length (s : str) :
  (length (strip_tagged_opening s) <= length s)%nat.
Proof.
  unfold strip_tagged_opening, slice_from.
  destruct (startswith s FENCE_SQL); [rewrite length_drop |]; lia.
Qed.

Lemma strip_generic_opening_length (s : str) :
  (length (strip_generic_opening s) <= length s)%nat.
Proof.
  unfold strip_generic_opening, slice_from.
  destruct (startswith s FENCE); [rewrite length_drop |]; lia.
Qed.

Lemma strip_closing_length (s : str) :
  (length (strip_closing s) <= length s)%nat.
Proof.
  unfold strip_closing, slice_to_minus.
  destruct (endswith s FENCE); [rewrite length_take |]; lia.
Qed.

Lemma FENCE_SQL_split : FENCE_SQL = FENCE ++ lit "sql".
Proof. reflexivity. Qed.

(** A string that does not open with the generic marker does not open with
    the tagged one either. *)
Lemma no_fence_no_tagged (s : str) :
  startswith s FENCE = false -> startswith s FENCE_SQL = false.
Proof.
  intros H. destruct (startswith s FENCE_SQL) eqn:E; [| reflexivity].
  rewrite FENCE_SQL_split in E. apply startswith_shorter in E. congruence.
Qed.

Lemma startswith_app_same (p r q : str) :
  startswith (p ++ r) (p ++ q) = startswith r q.
Proof.
  induction p as [|a p IH]; simpl; [reflexivity |].
  now rewrite N.eqb_refl, IH.
Qed.

(** After a tagged marker, a second marker follows exactly when the whole
    string starts with the two of them. *)
Lemma startswith_after_tag (s : str) :
  startswith s FENCE_SQL = true ->
  startswith s (FENCE_SQL ++ FENCE) = startswith (slice_from 6 s) FENCE.
Proof.
  intros H. apply startswith_true in H as [r ->].
  rewrite startswith_app_same. reflexivity.
Qed.

Lemma strip_opening_shrinks (s : str) :
  startswith s FENCE = true ->
  (length (strip_opening s) < length s)%nat.
Proof.
  intros H. unfold strip_opening, strip_tagged_opening.
  destruct (startswith s FENCE_SQL) eqn:E.
  - apply startswith_length in E. change (length FENCE_SQL) with 6%nat in E.
    pose proof (strip_generic_opening_length (slice_from 6 s)) as L.
    unfold slice_from in *. rewrite length_drop in L. lia.
  - unfold strip_generic_opening, slice_from. rewrite H.
    apply startswith_length in H. change (length FENCE) with 3%nat in H.
    rewrite length_drop. lia.
Qed.

Lemma strip_closing_shrinks (s : str) :
  endswith s FENCE = true ->
  (length (strip_closing s) < length s)%nat.
Proof.
  intros H. unfold strip_closing, slice_to_minus. rewrite H.
  apply endswith_length in H. change (length FENCE) with 3%nat in H.
  rewrite length_take. lia.
Qed.

Lemma clean_up_sql_stages (s : str) :
  clean_up_sql s = strip (strip_closing (strip_opening s)).
Proof. reflexivity. Qed.

Lemma clean_up_sql_length (s : str) :
  (length (clean_up_sql s) <= length s)%nat.
Proof.
  rewrite clean_up_sql_stages. unfold strip_opening.
  pose proof (strip_length (strip_closing (strip_generic_opening (strip_tagged_opening s)))).
  pose proof (strip_closing_length (strip_generic_opening (strip_tagged_opening s))).
  pose proof (strip_generic_opening_length (strip_tagged_opening s)).
  pose proof (strip_tagged_opening_length s).
  lia.
Qed.

(** A string without a marker at either end only gets trimmed. *)
Lemma clean_up_sql_no_fence (s : str) :
  startswith s FENCE = false -> endswith s FENCE = false ->
  clean_up_sql s = strip s.
Proof.
  intros Hs He. rewrite clean_up_sql_stages.
  unfold strip_opening, strip_tagged_opening.
  rewrite (no_fence_no_tagged _ Hs).
  unfold strip_generic_opening. rewrite Hs.
  unfold strip_closing. now rewrite He.
Qed.

(** A marker at either end makes the result strictly shorter. *)
Lemma clean_up_sql_shrinks (s : str) :
  startswith s FENCE = true \/ endswith s FENCE = true ->
  (length (clean_up_sql s) < length s)%nat.
Proof.
  intros H. rewrite clean_up_sql_stages.
  pose proof (strip_length (strip_closing (strip_opening s))) as L1.
  pose proof (strip_closing_length (strip_opening s)) as L2.
  destruct (startswith s FENCE) eqn:Hs.
  - pose proof (strip_opening_shrinks s Hs). lia.
  - destruct H as [H | He]; [discriminate |].
    assert (strip_opening s = s) as Eo.
    { unfold strip_opening, strip_tagged_opening.
      rewrite (no_fence_no_tagged _ Hs).
      unfold strip_generic_opening. now rewrite Hs. }
    rewrite Eo in *. pose proof (strip_closing_shrinks s He). lia.
Qed.

(** ** Markdown clean-up: properties *)

(** C5, as stated, fails: on ["```sql```"] the tagged check strips six
    characters and the generic check then strips the three that follow, so
    nine characters go as opening markers and not six. *)
Lemma strip_opening_strips_twice :
  let s := lit "```sql```" in
  startswith s FENCE_SQL = true
  /\ slice_from 6 s = lit "```"
  /\ strip_opening s = []
  /\ strip_opening s <> slice_from 6 s.
Proof. vm_compute. repeat split; discriminate. Qed.

(** C5, amended: for every input string that does not start with
    ["```sql```"], at most one opening marker is removed: nothing when the
    string does not start with ["```"]; the three characters of ["```"] when
    it starts with that but not with ["```sql"]; and, when it starts with
    ["```sql"], exactly those six characters, the generic check stripping
    nothing more. *)
Theorem strip_opening_at_most_one (s : str) :
  startswith s (FENCE_SQL ++ FENCE) = false ->
  (startswith s FENCE = false -> strip_opening s = s)
  /\ (startswith s FENCE = true -> startswith s FENCE_SQL = false ->
      strip_opening s = slice_from 3 s)
  /\ (startswith s FENCE_SQL = true ->
      strip_tagged_opening s = slice_from 6 s
      /\ strip_generic_opening (strip_tagged_opening s) = strip_tagged_opening s
      /\ strip_opening s = slice_from 6 s).
Proof.
  intros Hd. unfold strip_opening, strip_tagged_opening, strip_generic_opening.
  split; [| split].
  - intros Hs. now rewrite (no_fence_no_tagged _ Hs), Hs.
  - intros Hs Ht. now rewrite Ht, Hs.
  - intros Ht. rewrite Ht.
    rewrite (startswith_after_tag _ Ht) in Hd. now rewrite Hd.
Qed.

Lemma strip_opening_at_most_one_witness :
  let s := lit "```sql" ++ nl ++ lit "SELECT 1" ++ nl ++ lit "```" in
  startswith s (FENCE_SQL ++ FENCE) = false
  /\ startswith s FENCE_SQL = true
  /\ strip_opening s = nl ++ lit "SELECT 1" ++ nl ++ lit "```".
Proof.
  split; [reflexivity |]. split; [reflexivity |].
  apply (strip_opening_at_most_one
           (lit "```sql" ++ nl ++ lit "SELECT 1" ++ nl ++ lit "```"));
    reflexivity.
Defined.

(** C6, as stated, fails: six backquotes before a query lose three of them
    on the first pass and the other three on the second. *)
Lemma clean_up_sql_not_idempotent :
  let s := lit "``````SELECT 1" in
  clean_up_sql s = lit "```SELECT 1"
  /\ clean_up_sql (clean_up_sql s) = lit "SELECT 1"
  /\ clean_up_sql (clean_up_sql s) <> clean_up_sql s.
Proof. vm_compute. repeat split; discriminate. Qed.

(** C6, amended: cleaning an already cleaned string returns it unchanged
    exactly when the cleaned string neither starts nor ends with the marker
    ["```"]; in particular a second pass is a no-op whenever the first one
    left no marker at either end. *)
Theorem clean_up_sql_idempotent_iff (s : str) :
  clean_up_sql (clean_up_sql s) = clean_up_sql s
  <-> startswith (clean_up_sql s) FENCE = false
      /\ endswith (clean_up_sql s) FENCE = false.
Proof.
  split.
  - intros H.
    destruct (startswith (clean_up_sql s) FENCE) eqn:Hs;
      [| destruct (endswith (clean_up_sql s) FENCE) eqn:He; [| auto]].
    + pose proof (clean_up_sql_shrinks (clean_up_sql s) (or_introl Hs)) as L.
      rewrite H in L. lia.
    + pose proof (clean_up_sql_shrinks (clean_up_sql s) (or_intror He)) as L.
      rewrite H in L. lia.
  - intros [Hs He]. rewrite (clean_up_sql_no_fence _ Hs He).
    rewrite (clean_up_sql_stages s). apply strip_idem.
Qed.

(** C7: the three examples of the specification. *)
Theorem clean_up_sql_examples :
  clean_up_sql (lit "```sql" ++ nl ++ lit "SELECT 1" ++ nl ++ lit "```")
    = lit "SELECT 1"
  /\ clean_up_sql (lit "```" ++ nl ++ lit "SELECT 1" ++ nl ++ lit "```")
    = lit "SELECT 1"
  /\ clean_up_sql (lit "SELECT 1") = lit "SELECT 1".
Proof. repeat split; reflexivity. Qed.

(** ** Schema rendering: the loops as list equations *)

Lemma format_columns_app (cols : list (str * str)) (lines : list str) :
  format_columns lines cols = lines ++ List.map column_line cols.
Proof.
  unfold format_columns. revert lines.
  induction cols as [|[col_name col_type] cols IH]; intros lines; simpl.
  - now rewrite app_nil_r.
  - rewrite IH. unfold append. now rewrite <- app_assoc.
Qed.

Lemma format_table_app (entry : str * TableInfo) (lines : list str) :
  format_table lines entry = lines ++ table_block entry.
Proof.
  destruct entry as [table_name table_info].
  unfold format_table, table_block, append. rewrite format_columns_app.
  simpl. now rewrite <- !app_assoc.
Qed.

Lemma fold_format_table (ts : list (str * TableInfo)) (lines : list str) :
  fold_left format_table ts lines = lines ++ flat_map table_block ts.
Proof.
  revert lines. induction ts as [|entry ts IH]; intros lines; simpl.
  - now rewrite app_nil_r.
  - rewrite IH, format_table_app. now rewrite <- app_assoc.
Qed.

Lemma schema_lines_blocks (schema_info : SchemaInfo) :
  schema_lines schema_info = flat_map table_block (get_tables schema_info).
Proof. unfold schema_lines. now rewrite fold_format_table. Qed.

(** ** Lines of a joined text *)

Lemma single_line_app (a b : str) :
  single_line (a ++ b) = single_line a && single_line b.
Proof. unfold single_line. apply forallb_app. Qed.

Lemma split_lines_single (l : str) :
  single_line l = true -> split_lines l = [l].
Proof.
  induction l as [|c l IH]; simpl; [reflexivity |].
  intros H. apply andb_true_iff in H as [Hc Hl].
  apply negb_true_iff in Hc. rewrite Hc, (IH Hl). reflexivity.
Qed.

Lemma split_lines_cons (l rest : str) :
  single_line l = true ->
  split_lines (l ++ LF :: rest) = l :: split_lines rest.
Proof.
  induction l as [|c l IH]; simpl; [reflexivity |].
  intros H. apply andb_true_iff in H as [Hc Hl].
  apply negb_true_iff in Hc. rewrite Hc, (IH Hl). reflexivity.
Qed.

(** Splitting at line feeds undoes joining with line feeds, as long as
    there is a line at all and no line holds a line feed. *)
Lemma split_lines_join (l : str) (ls : list str) :
  forallb single_line (l :: ls) = true ->
  split_lines (join nl (l :: ls)) = l :: ls.
Proof.
  revert l. induction ls as [|l' ls IH]; intros l H.
  - simpl in H. rewrite andb_true_r in H. now apply split_lines_single.
  - change (forallb single_line (l :: l' :: ls))
      with (single_line l && forallb single_line (l' :: ls)) in H.
    apply andb_true_iff in H as [Hl Hls].
    change (join nl (l :: l' :: ls)) with (l ++ LF :: join nl (l' :: ls)).
    now rewrite (split_lines_cons _ _ Hl), (IH _ Hls).
Qed.

Lemma str_of_int_single_line (n : Z) : single_line (str_of_int n) = true.
Proof.
  assert (forall d, single_line (lit (NilEmpty.string_of_uint d)) = true) as U.
  { induction d; simpl; auto. }
  assert (forall d, single_line (lit (NilZero.string_of_uint d)) = true) as U0.
  { intros d. destruct d; try apply (U (_ d)); reflexivity. }
  unfold str_of_int. destruct (Z.to_int n) as [d | d]; simpl.
  - apply U0.
  - apply U0.
Qed.

Lemma column_line_single_line (col : str * str) :
  single_line (fst col) && single_line (snd col) = true ->
  single_line (column_line col) = true.
Proof.
  intros H. apply andb_true_iff in H as [H1 H2].
  unfold column_line. rewrite !single_line_app, H1, H2. reflexivity.
Qed.

Lemma table_block_single_line (entry : str * TableInfo) :
  table_single_line entry = true ->
  forallb single_line (table_block entry) = true.
Proof.
  unfold table_single_line, table_block. intros H.
  apply andb_true_iff in H as [Hn Hc].
  rewrite forallb_app, forallb_app.
  assert (forallb single_line (List.map column_line (columns (snd entry))) = true)
    as ->.
  { rewrite forallb_forall in Hc. apply forallb_forall.
    intros l Hl. apply in_map_iff in Hl as [col [<- Hin]].
    apply column_line_single_line, Hc, Hin. }
  cbn [forallb].
  rewrite !single_line_app, Hn, str_of_int_single_line. reflexivity.
Qed.

Lemma blocks_single_line (ts : list (str * TableInfo)) :
  forallb table_single_line ts = true ->
  forallb single_line (flat_map table_block ts) = true.
Proof.
  induction ts as [|entry ts IH]; simpl; [reflexivity |].
  intros H. apply andb_true_iff in H as [He Hts].
  change (forallb single_line (table_block entry ++ flat_map table_block ts) = true).
  rewrite forallb_app, (table_block_single_line _ He), (IH Hts). reflexivity.
Qed.

(** ** Counting the lines of the blocks *)

Lemma count_starting_app (p : str) (a b : list str) :
  count_starting p (a ++ b) = (count_starting p a + count_starting p b)%nat.
Proof. unfold count_starting. now rewrite List.filter_app, length_app. Qed.

Lemma count_starting_columns (p : str) (cols : list (str * str)) :
  startswith (lit "  - ") (firstn 1 p) = false ->
  count_starting p (List.map column_line cols) = 0%nat.
Proof.
  intros Hp. induction cols as [|col cols IH]; [reflexivity |].
  change (List.map column_line (col :: cols))
    with ([column_line col] ++ List.map column_line cols).
  rewrite count_starting_app, IH.
  unfold count_starting, column_line. simpl.
  destruct p as [|a p]; [discriminate |]. simpl in Hp |- *.
  rewrite andb_true_r in Hp. now rewrite Hp.
Qed.

Lemma count_table_headers_block (entry : str * TableInfo) :
  count_starting (lit "Table:") (table_block entry) = 1%nat.
Proof.
  unfold table_block. rewrite !count_starting_app.
  rewrite count_starting_columns by reflexivity. reflexivity.
Qed.

Lemma count_row_counts_block (entry : str * TableInfo) :
  count_starting (lit "Row count:") (table_block entry) = 1%nat.
Proof.
  unfold table_block. rewrite !count_starting_app.
  rewrite count_starting_columns by reflexivity. reflexivity.
Qed.

Lemma count_starting_blocks (p : str) (ts : list (str * TableInfo)) :
  (forall entry, count_starting p (table_block entry) = 1%nat) ->
  count_starting p (flat_map table_block ts) = length ts.
Proof.
  intros Hp. induction ts as [|entry ts IH]; [reflexivity |].
  change (flat_map table_block (entry :: ts))
    with (table_block entry ++ flat_map table_block ts).
  rewrite count_starting_app, Hp, IH. reflexivity.
Qed.

(** ** Schema rendering: properties *)

(** C3, as stated, fails: between the header and the columns the code emits
    the line ["Columns:"], which the stated block does not have. *)
Lemma format_schema_has_columns_line :
  let schema_info :=
    {| tables := Some [(lit "users",
                        {| columns := [(lit "id", lit "INTEGER")];
                           row_count := 100 |})] |} in
  format_schema_for_prompt schema_info
    = join nl [lit "Table: users"; lit "Columns:"; lit "  - id (INTEGER)";
               lit "Row count: 100"; []]
  /\ spec_format_schema schema_info
    = join nl [lit "Table: users"; lit "  - id (INTEGER)";
               lit "Row count: 100"; []]
  /\ format_schema_for_prompt schema_info <> spec_format_schema schema_info.
Proof. vm_compute. repeat split; discriminate. Qed.

(** C3, amended: for every schema whose row counts the interpreter prints
    (at most 4300 digits each), the result is exactly the lines of the
    tables' blocks, in the mapping's iteration order, joined by line feeds,
    where the block of a table is ["Table: <name>"], then ["Columns:"],
    then one line ["  - <name> (<type>)"] per column, then
    ["Row count: <n>"], then an empty line, with no other line in
    between. *)
Theorem format_schema_for_prompt_blocks (schema_info : SchemaInfo) :
  row_counts_printable schema_info = true ->
  format_schema_for_prompt schema_info
  = join nl (flat_map table_block (get_tables schema_info))
  /\ forall entry,
       table_block entry
       = [lit "Table: " ++ fst entry; lit "Columns:"]
         ++ List.map
              (fun col => lit "  - " ++ fst col ++ lit " (" ++ snd col ++ lit ")")
              (columns (snd entry))
         ++ [lit "Row count: " ++ str_of_int (row_count (snd entry)); []].
Proof.
  intros _. unfold format_schema_for_prompt. rewrite schema_lines_blocks.
  split; reflexivity.
Qed.

Lemma format_schema_for_prompt_blocks_witness :
  row_counts_printable two_tables = true
  /\ format_schema_for_prompt two_tables
     = join nl [lit "Table: users"; lit "Columns:"; lit "  - id (INTEGER)";
                lit "  - name (TEXT)"; lit "Row count: 100"; [];
                lit "Table: products"; lit "Columns:"; lit "  - price (REAL)";
                lit "Row count: 50"; []].
Proof.
  split; [reflexivity |].
  destruct (format_schema_for_prompt_blocks two_tables eq_refl) as [H _].
  rewrite H. reflexivity.
Defined.

(** C8, as stated, fails: a table name is any string, and one that holds a
    line feed followed by ["Table:"] puts a second header line into the
    text of a schema with one table. *)
Lemma format_schema_extra_header :
  let schema_info :=
    {| tables := Some [(lit "a" ++ nl ++ lit "Table: b",
                        {| columns := []; row_count := 0 |})] |} in
  length (get_tables schema_info) = 1%nat
  /\ format_schema_for_prompt schema_info
     = join nl [lit "Table: a"; lit "Table: b"; lit "Columns:";
                lit "Row count: 0"; []]
  /\ count_lines (lit "Table:") (format_schema_for_prompt schema_info) = 2%nat
  /\ count_lines (lit "Table:") (format_schema_for_prompt schema_info)
     <> length (get_tables schema_info).
Proof. vm_compute. repeat split; discriminate. Qed.

(** C8, amended: for every schema whose table names, column names and
    column types hold no line feed and whose row counts the interpreter
    prints (at most 4300 digits each), the text has exactly as many lines
    starting with ["Table:"] as the mapping has entries, and as many lines
    starting with ["Row count:"]. *)
Theorem format_schema_counts (schema_info : SchemaInfo) :
  schema_single_line schema_info = true ->
  row_counts_printable schema_info = true ->
  count_lines (lit "Table:") (format_schema_for_prompt schema_info)
    = length (get_tables schema_info)
  /\ count_lines (lit "Row count:") (format_schema_for_prompt schema_info)
    = length (get_tables schema_info).
Proof.
  unfold schema_single_line, format_schema_for_prompt, count_lines.
  rewrite schema_lines_blocks. intros H _.
  apply blocks_single_line in H.
  assert (forall p,
            count_starting p (split_lines (join nl (flat_map table_block (get_tables schema_info))))
            = count_starting p (flat_map table_block (get_tables schema_info))
            \/ get_tables schema_info = []) as S.
  { intros p. destruct (get_tables schema_info) as [|entry ts]; [now right | left].
    destruct (flat_map table_block (entry :: ts)) as [|l ls] eqn:E;
      [discriminate |].
    now rewrite split_lines_join. }
  split.
  - destruct (S (lit "Table:")) as [-> | ->]; [| reflexivity].
    apply count_starting_blocks, count_table_headers_block.
  - destruct (S (lit "Row count:")) as [-> | ->]; [| reflexivity].
    apply count_starting_blocks, count_row_counts_block.
Qed.

Lemma format_schema_counts_witness :
  schema_single_line two_tables = true
  /\ row_counts_printable two_tables = true
  /\ count_lines (lit "Table:") (format_schema_for_prompt two_tables) = 2%nat
  /\ count_lines (lit "Row count:") (format_schema_for_prompt two_tables) = 2%nat.
Proof.
  split; [reflexivity |]. split; [reflexivity |].
  apply (format_schema_counts two_tables); reflexivity.
Defined.

(** C9: a schema whose ['tables'] mapping is empty renders as the empty
    string. *)
Theorem format_schema_empty (schema_info : SchemaInfo) :
  tables schema_info = Some [] ->
  format_schema_for_prompt schema_info = [].
Proof.
  intros H. unfold format_schema_for_prompt, schema_lines, get_tables.
  rewrite H. reflexivity.
Qed.

Lemma format_schema_empty_witness :
  tables {| tables := Some [] |} = Some []
  /\ format_schema_for_prompt {| tables := Some [] |} = [].
Proof.
  split; [reflexivity |].
  apply (format_schema_empty {| tables := Some [] |}). reflexivity.
Defined.

(** C10: a schema dictionary without the key ['tables'] is read as one
    with no tables: the result is the empty string and nothing is raised
    (the function is total and returns a string). *)
Theorem format_schema_missing_tables (schema_info : SchemaInfo) :
  tables schema_info = None ->
  get_tables schema_info = []
  /\ format_schema_for_prompt schema_info = [].
Proof.
  intros H. unfold format_schema_for_prompt, schema_lines, get_tables.
  rewrite H. split; reflexivity.
Qed.

Lemma format_schema_missing_tables_witness :
  tables {| tables := None |} = None
  /\ format_schema_for_prompt {| tables := None |} = [].
Proof.
  split; [reflexivity |].
  apply (format_schema_missing_tables {| tables := None |}). reflexivity.
Defined.

(** ** Provider selection and failure *)

Lemma has_bedrock_credentials_pair (env : environ) :
  has_bedrock_credentials env = bedrock_pair_present env.
Proof.
  unfold has_bedrock_credentials, bedrock_pair_present, py_and, py_or.
  destruct (truthy (env !! lit "AWS_ACCESS_KEY_ID")) eqn:E1; simpl.
  - now rewrite E1.
  - destruct (truthy (env !! lit "AWS_ACCESS_KEY")) eqn:E2; [reflexivity |].
    now rewrite E2.
Qed.

Lemma contains_startswith (s x : str) :
  startswith s x = true -> contains s x = true.
Proof. intros H. destruct s; simpl; now rewrite H. Qed.

Lemma contains_app_r (a s x : str) :
  contains s x = true -> contains (a ++ s) x = true.
Proof.
  intros H. induction a as [|c a IH]; [exact H |].
  simpl. rewrite IH. apply orb_true_r.
Qed.

Lemma contains_middle (a x b : str) : contains (a ++ x ++ b) x = true.
Proof. apply contains_app_r, contains_startswith, startswith_app. Qed.

Lemma wrapped_message_contains (p : provider) (text : str) :
  contains (wrapped_message p text) (provider_name p) = true
  /\ contains (wrapped_message p text) text = true.
Proof.
  unfold wrapped_message. split.
  - apply contains_middle.
  - do 3 apply contains_app_r. apply contains_startswith, startswith_true.
    exists []. now rewrite app_nil_r.
Qed.

Section Dispatch.

Variable sdk : SDK.

Lemma generate_sql_selected env request schema_info :
  generate_sql sdk env request schema_info
  = provider_variant sdk (selected_provider env request)
      env (query request) schema_info.
Proof.
  unfold generate_sql, selected_provider.
  destruct (truthy (env !! lit "OPENAI_API_KEY")); [reflexivity |].
  destruct (has_bedrock_credentials env); [reflexivity |].
  destruct (bool_decide (llm_provider request = lit "openai")); reflexivity.
Qed.

(** A variant is the body of its [try] block, with a raised exception
    replaced by the wrapped one; the handler makes no call. *)
Lemma provider_variant_body p env query_text schema_info :
  provider_variant sdk p env query_text schema_info
  = (trace (provider_body sdk p env query_text schema_info),
     match outcome (provider_body sdk p env query_text schema_info) with
     | inl e => inl {| exn_kind := Exception;
                       exn_str := wrapped_message p (exn_str e) |}
     | inr sql => inr sql
     end).
Proof.
  destruct p; simpl;
    unfold generate_sql_with_openai, generate_sql_with_anthropic, try_except.
  - destruct (openai_body sdk env query_text schema_info) as [tr [e | sql]];
      simpl; [now rewrite app_nil_r | reflexivity].
  - destruct (anthropic_body sdk env query_text schema_info) as [tr [e | sql]];
      simpl; [now rewrite app_nil_r | reflexivity].
Qed.

Lemma openai_body_only_calls env query_text schema_info :
  only_calls OpenAI (trace (openai_body sdk env query_text schema_info)).
Proof.
  unfold openai_body, only_calls.
  destruct (negb (truthy (env !! lit "OPENAI_API_KEY"))); [constructor |].
  unfold bind, call.
  destruct (openai_new sdk _); simpl; [| repeat constructor].
  destruct (chat_completions_create sdk _ _ _ _ _); simpl; repeat constructor.
Qed.

Lemma anthropic_body_only_calls env query_text schema_info :
  only_calls Anthropic (trace (anthropic_body sdk env query_text schema_info)).
Proof.
  unfold anthropic_body, only_calls.
  destruct (_ || _); [constructor |].
  unfold bind, call.
  destruct (bedrock_new sdk _ _ _); simpl; [| repeat constructor].
  destruct (messages_create sdk _ _ _ _ _ _); simpl; repeat constructor.
Qed.

Lemma provider_body_only_calls p env query_text schema_info :
  only_calls p (trace (provider_body sdk p env query_text schema_info)).
Proof.
  destruct p; [apply openai_body_only_calls | apply anthropic_body_only_calls].
Qed.

(** The three ways the OpenAI body raises. *)
Lemma openai_body_missing_key env query_text schema_info :
  openai_key_set env = false ->
  openai_body sdk env query_text schema_info
  = raise ValueError (lit "OPENAI_API_KEY environment variable not set").
Proof. unfold openai_key_set, openai_body. now intros ->. Qed.

Lemma openai_body_client_error env query_text schema_info msg :
  openai_key_set env = true ->
  openai_new sdk (value (env !! lit "OPENAI_API_KEY")) = Raised msg ->
  outcome (openai_body sdk env query_text schema_info)
  = inl {| exn_kind := SdkError; exn_str := msg |}.
Proof.
  unfold openai_key_set, openai_body. intros -> E. simpl. now rewrite E.
Qed.

Lemma openai_body_call_error env query_text schema_info msg :
  openai_key_set env = true ->
  openai_new sdk (value (env !! lit "OPENAI_API_KEY")) = Returned tt ->
  (forall key model system user n,
      chat_completions_create sdk key model system user n = Raised msg) ->
  outcome (openai_body sdk env query_text schema_info)
  = inl {| exn_kind := SdkError; exn_str := msg |}.
Proof.
  unfold openai_key_set, openai_body. intros -> E1 E2. simpl.
  rewrite E1. simpl. now rewrite E2.
Qed.

End Dispatch.

Lemma anthropic_body_missing_credentials sdk env query_text schema_info :
  bedrock_pair_present env = false ->
  anthropic_body sdk env query_text schema_info
  = raise ValueError
      (lit "AWS credentials not set (AWS_ACCESS_KEY_ID/AWS_ACCESS_KEY and AWS_SECRET_ACCESS_KEY)").
Proof.
  unfold bedrock_pair_present, anthropic_body, py_or. intros H.
  destruct (truthy (env !! lit "AWS_ACCESS_KEY_ID")) eqn:E1; cbv iota.
  - rewrite E1. simpl in H. rewrite H. reflexivity.
  - destruct (truthy (env !! lit "AWS_ACCESS_KEY")) eqn:E2; simpl in H.
    + rewrite H. reflexivity.
    + reflexivity.
Qed.

(** Whatever [generate_sql] raises is an [Exception] carrying the wrapped
    message of the selected provider: there is no other way out of it than
    a returned string or that exception. *)
Lemma generate_sql_raises_wrapped sdk env request schema_info e' :
  outcome (generate_sql sdk env request schema_info) = inl e' ->
  exists e,
    outcome (provider_body sdk (selected_provider env request)
               env (query request) schema_info) = inl e
    /\ e' = {| exn_kind := Exception;
               exn_str := wrapped_message (selected_provider env request)
                            (exn_str e) |}.
Proof.
  rewrite generate_sql_selected, provider_variant_body. simpl.
  destruct (outcome (provider_body sdk _ env (query request) schema_info))
    as [e | sql]; [| discriminate].
  intros [= <-]. now exists e.
Qed.

(** ** Provider selection and failure: properties *)

(** C1: with [OPENAI_API_KEY] set, [generate_sql] is the OpenAI variant and
    calls OpenAI only, whatever [request.llm_provider] says; without it but
    with the Bedrock pair present, it is the Anthropic variant and calls
    Bedrock only, whatever [request.llm_provider] says. *)
Theorem generate_sql_credentials_first sdk env request schema_info :
  (openai_key_set env = true ->
   generate_sql sdk env request schema_info
     = generate_sql_with_openai sdk env (query request) schema_info
   /\ only_calls OpenAI (trace (generate_sql sdk env request schema_info)))
  /\ (openai_key_set env = false ->
      bedrock_pair_present env = true ->
      generate_sql sdk env request schema_info
        = generate_sql_with_anthropic sdk env (query request) schema_info
      /\ only_calls Anthropic (trace (generate_sql sdk env request schema_info))).
Proof.
  split.
  - intros Hk.
    assert (selected_provider env request = OpenAI) as Hsel.
    { unfold selected_provider. fold (openai_key_set env). now rewrite Hk. }
    rewrite generate_sql_selected, Hsel. split; [reflexivity |].
    rewrite provider_variant_body. apply provider_body_only_calls.
  - intros Hk Hb.
    assert (selected_provider env request = Anthropic) as Hsel.
    { unfold selected_provider. fold (openai_key_set env).
      now rewrite Hk, has_bedrock_credentials_pair, Hb. }
    rewrite generate_sql_selected, Hsel. split; [reflexivity |].
    rewrite provider_variant_body. apply provider_body_only_calls.
Qed.

Lemma generate_sql_credentials_first_witness :
  (openai_key_set env_both = true
   /\ generate_sql sdk_echo env_both (request_for "anthropic") no_tables
      = generate_sql_with_openai sdk_echo env_both (lit "Show all users") no_tables)
  /\ (openai_key_set env_bedrock = false
      /\ bedrock_pair_present env_bedrock = true
      /\ generate_sql sdk_echo env_bedrock (request_for "openai") no_tables
         = generate_sql_with_anthropic sdk_echo env_bedrock (lit "Show all users") no_tables).
Proof.
  split.
  - split; [reflexivity |].
    apply (generate_sql_credentials_first
             sdk_echo env_both (request_for "anthropic") no_tables).
    reflexivity.
  - split; [reflexivity |]. split; [reflexivity |].
    apply (generate_sql_credentials_first
             sdk_echo env_bedrock (request_for "openai") no_tables);
      reflexivity.
Defined.

(** C2: with neither the OpenAI key nor the Bedrock pair present,
    [generate_sql] follows [request.llm_provider]: ["openai"] gives the
    OpenAI variant, every other value the Anthropic variant. *)
Theorem generate_sql_follows_preference sdk env request schema_info :
  openai_key_set env = false ->
  bedrock_pair_present env = false ->
  (llm_provider request = lit "openai" ->
   generate_sql sdk env request schema_info
     = generate_sql_with_openai sdk env (query request) schema_info)
  /\ (llm_provider request <> lit "openai" ->
      generate_sql sdk env request schema_info
        = generate_sql_with_anthropic sdk env (query request) schema_info).
Proof.
  intros Hk Hb. unfold generate_sql. fold (openai_key_set env).
  rewrite Hk, has_bedrock_credentials_pair, Hb. split; intros Hp.
  - now rewrite bool_decide_eq_true_2.
  - now rewrite bool_decide_eq_false_2.
Qed.

Lemma generate_sql_follows_preference_witness :
  openai_key_set ∅ = false
  /\ bedrock_pair_present ∅ = false
  /\ generate_sql sdk_echo ∅ (request_for "openai") no_tables
     = generate_sql_with_openai sdk_echo ∅ (lit "Show all users") no_tables
  /\ generate_sql sdk_echo ∅ (request_for "anthropic") no_tables
     = generate_sql_with_anthropic sdk_echo ∅ (lit "Show all users") no_tables.
Proof.
  split; [reflexivity |]. split; [reflexivity |]. split.
  - apply (generate_sql_follows_preference
             sdk_echo ∅ (request_for "openai") no_tables);
      reflexivity.
  - apply (generate_sql_follows_preference
             sdk_echo ∅ (request_for "anthropic") no_tables);
      [reflexivity | reflexivity | discriminate].
Defined.

(** ** Further properties: the bodies of the variants, case by case *)

Lemma truthy_true_iff (v : option str) :
  truthy v = true <-> exists k : str, v = Some k /\ k <> [].
Proof.
  split.
  - destruct v as [[|c k] |]; simpl; try discriminate.
    intros _. exists (c :: k). split; [reflexivity | discriminate].
  - intros [k [-> Hk]]. destruct k; [contradiction | reflexivity].
Qed.

(** The body of the OpenAI variant, by the answers of the SDK. *)
Lemma openai_body_cases sdk env query_text schema_info :
  let key := value (env !! lit "OPENAI_API_KEY") in
  let model := lit "gpt-4.1-mini" in
  let system :=
    lit "You are a SQL expert. Convert natural language to SQL queries." in
  let prompt := sql_prompt (format_schema_for_prompt schema_info) query_text in
  openai_body sdk env query_text schema_info
  = if openai_key_set env then
      match openai_new sdk key with
      | Raised msg =>
          ([NewOpenAI key], inl {| exn_kind := SdkError; exn_str := msg |})
      | Returned _ =>
          ([NewOpenAI key; ChatCompletionsCreate key model system prompt 500%Z],
           match chat_completions_create sdk key model system prompt 500%Z with
           | Raised msg => inl {| exn_kind := SdkError; exn_str := msg |}
           | Returned content => inr (clean_up_sql (strip content))
           end)
      end
    else raise ValueError OPENAI_KEY_NOT_SET.
Proof.
  intros key model system prompt. unfold openai_body, openai_key_set.
  destruct (truthy (env !! lit "OPENAI_API_KEY")); [| reflexivity].
  cbv beta iota zeta delta [negb bind call]. fold key model system prompt.
  destruct (openai_new sdk key); [| reflexivity].
  destruct (chat_completions_create sdk key model system prompt 500%Z);
    reflexivity.
Qed.

Lemma anthropic_body_cases sdk env query_text schema_info :
  let access := bedrock_access_key env in
  let secret := value (env !! lit "AWS_SECRET_ACCESS_KEY") in
  let region := default (lit "eu-west-3") (env !! lit "AWS_REGION") in
  let model := default DEFAULT_BEDROCK_MODEL (env !! lit "ANTHROPIC_MODEL") in
  let prompt := sql_prompt (format_schema_for_prompt schema_info) query_text in
  anthropic_body sdk env query_text schema_info
  = if bedrock_pair_present env then
      match bedrock_new sdk access secret region with
      | Raised msg =>
          ([NewAnthropicBedrock access secret region],
           inl {| exn_kind := SdkError; exn_str := msg |})
      | Returned _ =>
          ([NewAnthropicBedrock access secret region;
            MessagesCreate access secret region model prompt 500%Z],
           match messages_create sdk access secret region model prompt 500%Z with
           | Raised msg => inl {| exn_kind := SdkError; exn_str := msg |}
           | Returned content => inr (clean_up_sql (strip content))
           end)
      end
    else raise ValueError AWS_CREDENTIALS_NOT_SET.
Proof.
  intros access secret region model prompt.
  destruct (bedrock_pair_present env) eqn:Hb.
  - unfold anthropic_body.
    assert (py_or (env !! lit "AWS_ACCESS_KEY_ID") (env !! lit "AWS_ACCESS_KEY")
            = (if truthy (env !! lit "AWS_ACCESS_KEY_ID")
               then env !! lit "AWS_ACCESS_KEY_ID"
               else env !! lit "AWS_ACCESS_KEY")) as Hor by reflexivity.
    assert (truthy (py_or (env !! lit "AWS_ACCESS_KEY_ID")
                      (env !! lit "AWS_ACCESS_KEY")) = true
            /\ truthy (env !! lit "AWS_SECRET_ACCESS_KEY") = true) as [Ha Hs].
    { unfold bedrock_pair_present in Hb. apply andb_true_iff in Hb as [H1 H2].
      split; [| exact H2]. rewrite Hor.
      destruct (truthy (env !! lit "AWS_ACCESS_KEY_ID")) eqn:E; [exact E |].
      exact H1. }
    assert (value (py_or (env !! lit "AWS_ACCESS_KEY_ID")
                     (env !! lit "AWS_ACCESS_KEY")) = access) as Hacc.
    { unfold access, bedrock_access_key. rewrite Hor.
      now destruct (truthy (env !! lit "AWS_ACCESS_KEY_ID")). }
    rewrite Ha, Hs, Hacc.
    cbv beta iota zeta delta [negb orb bind call].
    fold secret region model prompt.
    destruct (bedrock_new sdk access secret region); [| reflexivity].
    destruct (messages_create sdk access secret region model prompt 500%Z);
      reflexivity.
  - now apply anthropic_body_missing_credentials.
Qed.

Lemma provider_body_single_attempt sdk p env query_text schema_info :
  single_attempt (trace (provider_body sdk p env query_text schema_info)).
Proof.
  unfold single_attempt. destruct p; simpl.
  - rewrite openai_body_cases. destruct (openai_key_set env); [| now left].
    destruct (openai_new sdk _); right; [right | left]; simpl; eauto.
  - rewrite anthropic_body_cases. destruct (bedrock_pair_present env); [| now left].
    destruct (bedrock_new sdk _ _ _); right; [right | left]; simpl; eauto.
Qed.

Lemma selected_provider_no_credentials env request :
  openai_key_set env = false -> bedrock_pair_present env = false ->
  selected_provider env request
  = if bool_decide (llm_provider request = lit "openai") then OpenAI
    else Anthropic.
Proof.
  intros Hk Hb. unfold selected_provider. fold (openai_key_set env).
  now rewrite Hk, has_bedrock_credentials_pair, Hb.
Qed.

(** With a credential that made the selection, the selected body passes its
    own credential check. *)
Lemma selected_provider_has_credentials env request :
  openai_key_set env = true \/ bedrock_pair_present env = true ->
  match selected_provider env request with
  | OpenAI => openai_key_set env = true
  | Anthropic => bedrock_pair_present env = true
  end.
Proof.
  intros H. unfold selected_provider. fold (openai_key_set env).
  rewrite has_bedrock_credentials_pair.
  destruct (openai_key_set env); [reflexivity |].
  destruct (bedrock_pair_present env); [reflexivity |].
  destruct H; discriminate.
Qed.

Lemma strip_stripped (s : str) : lstripped (strip s) /\ rstripped (strip s).
Proof.
  split.
  - apply rstrip_lstripped, lstrip_lstripped.
  - unfold rstripped, strip, rstrip. rewrite rev_involutive.
    apply lstrip_lstripped.
Qed.

(** ** Further properties: credentials and calls *)

(** X1: [has_bedrock_credentials] answers [True] exactly when
    [AWS_ACCESS_KEY_ID] or [AWS_ACCESS_KEY] is set to a non-empty value and
    [AWS_SECRET_ACCESS_KEY] is set to a non-empty value; a variable set to
    the empty string counts as missing. *)
Theorem has_bedrock_credentials_true_iff (env : environ) :
  has_bedrock_credentials env = true
  <-> ((exists k : str, env !! lit "AWS_ACCESS_KEY_ID" = Some k /\ k <> [])
       \/ (exists k : str, env !! lit "AWS_ACCESS_KEY" = Some k /\ k <> []))
      /\ (exists s : str, env !! lit "AWS_SECRET_ACCESS_KEY" = Some s /\ s <> []).
Proof.
  rewrite has_bedrock_credentials_pair. unfold bedrock_pair_present.
  rewrite andb_true_iff, orb_true_iff, !truthy_true_iff. reflexivity.
Qed.

(** X2: with neither the OpenAI key nor the Bedrock pair set, [generate_sql]
    makes no SDK call and raises the wrapped credential error of the
    provider the request names: the OpenAI one for ["openai"], the Bedrock
    one for any other preference. *)
Theorem generate_sql_no_credentials sdk env request schema_info :
  openai_key_set env = false ->
  bedrock_pair_present env = false ->
  generate_sql sdk env request schema_info
  = ([], inl {| exn_kind := Exception;
                exn_str :=
                  if bool_decide (llm_provider request = lit "openai")
                  then lit "Error generating SQL with OpenAI: " ++ OPENAI_KEY_NOT_SET
                  else lit "Error generating SQL with Anthropic: "
                         ++ AWS_CREDENTIALS_NOT_SET |}).
Proof.
  intros Hk Hb.
  rewrite generate_sql_selected, provider_variant_body.
  rewrite (selected_provider_no_credentials _ _ Hk Hb).
  destruct (bool_decide (llm_provider request = lit "openai")); simpl.
  - rewrite openai_body_cases, Hk. reflexivity.
  - rewrite anthropic_body_cases, Hb. reflexivity.
Qed.

Lemma generate_sql_no_credentials_witness :
  openai_key_set ∅ = false
  /\ bedrock_pair_present ∅ = false
  /\ generate_sql sdk_echo ∅ (request_for "anthropic") two_tables
     = ([], inl {| exn_kind := Exception;
                   exn_str := lit "Error generating SQL with Anthropic: "
                                ++ AWS_CREDENTIALS_NOT_SET |}).
Proof.
  split; [reflexivity |]. split; [reflexivity |].
  apply (generate_sql_no_credentials sdk_echo ∅ (request_for "anthropic") two_tables);
    reflexivity.
Defined.

(** X3: [generate_sql] reaches an SDK exactly when a credential is set: its
    list of calls is empty if and only if neither the OpenAI key nor the
    Bedrock pair is present. *)
Theorem generate_sql_calls_iff_credentials sdk env request schema_info :
  trace (generate_sql sdk env request schema_info) = []
  <-> openai_key_set env = false /\ bedrock_pair_present env = false.
Proof.
  rewrite generate_sql_selected, provider_variant_body. simpl. split.
  - intros H.
    destruct (openai_key_set env) eqn:Hk;
      [| destruct (bedrock_pair_present env) eqn:Hb; [| auto]].
    + pose proof (selected_provider_has_credentials env request (or_introl Hk)) as S.
      destruct (selected_provider env request); simpl in H.
      * rewrite openai_body_cases, Hk in H.
        destruct (openai_new sdk _); discriminate.
      * rewrite anthropic_body_cases, S in H.
        destruct (bedrock_new sdk _ _ _); discriminate.
    + pose proof (selected_provider_has_credentials env request (or_intror Hb)) as S.
      destruct (selected_provider env request); simpl in H.
      * congruence.
      * rewrite anthropic_body_cases, Hb in H.
        destruct (bedrock_new sdk _ _ _); discriminate.
  - intros [Hk Hb].
    destruct (selected_provider env request); simpl.
    + now rewrite openai_body_cases, Hk.
    + now rewrite anthropic_body_cases, Hb.
Qed.

(** X4: one run of [generate_sql] makes a single attempt: it calls nothing,
    or builds one client, or builds one client and sends one completion
    request after it; there is no second request and no call to the
    provider that was not selected. *)
Theorem generate_sql_single_attempt sdk env request schema_info :
  single_attempt (trace (generate_sql sdk env request schema_info))
  /\ (length (List.filter is_request
                (trace (generate_sql sdk env request schema_info))) <= 1)%nat
  /\ only_calls (selected_provider env request)
       (trace (generate_sql sdk env request schema_info)).
Proof.
  rewrite generate_sql_selected, provider_variant_body. simpl.
  pose proof (provider_body_single_attempt sdk (selected_provider env request)
                env (query request) schema_info) as S.
  split; [exact S |]. split; [| apply provider_body_only_calls].
  destruct S as [-> | [[c [-> Hc]] | [c [r [-> [Hc Hr]]]]]]; simpl.
  - lia.
  - rewrite Hc. simpl. lia.
  - rewrite Hc, Hr. simpl. lia.
Qed.

(** X5: a completion request is sent only after the client was built: when
    a credential is set and the constructor of the selected provider's
    client raises, the only call made is that constructor, and its error
    text comes back wrapped with the provider's name. *)
Theorem generate_sql_client_error sdk env request schema_info msg :
  openai_key_set env = true \/ bedrock_pair_present env = true ->
  client_answer sdk env (selected_provider env request) = Raised msg ->
  generate_sql sdk env request schema_info
  = ([client_event env (selected_provider env request)],
     inl {| exn_kind := Exception;
            exn_str := wrapped_message (selected_provider env request) msg |}).
Proof.
  intros Hc Hn.
  pose proof (selected_provider_has_credentials env request Hc) as S.
  rewrite generate_sql_selected, provider_variant_body.
  destruct (selected_provider env request); simpl in *.
  - rewrite openai_body_cases, S, Hn. reflexivity.
  - rewrite anthropic_body_cases, S, Hn. reflexivity.
Qed.

Lemma generate_sql_client_error_witness :
  (openai_key_set env_bedrock = true \/ bedrock_pair_present env_bedrock = true)
  /\ client_answer sdk_failing env_bedrock
       (selected_provider env_bedrock (request_for "openai"))
     = Raised (lit "no region")
  /\ generate_sql sdk_failing env_bedrock (request_for "openai") two_tables
     = ([NewAnthropicBedrock (lit "test-access-key") (lit "test-secret-key")
           (lit "eu-west-3")],
        inl {| exn_kind := Exception;
               exn_str := lit "Error generating SQL with Anthropic: no region" |}).
Proof.
  split; [right; reflexivity |]. split; [reflexivity |].
  apply (generate_sql_client_error
           sdk_failing env_bedrock (request_for "openai") two_tables
           (lit "no region"));
    [right |]; reflexivity.
Defined.


(** X8: with the Bedrock pair present, the Anthropic variant first builds
    its client, from [AWS_ACCESS_KEY_ID] when that has a non-empty value
    and from [AWS_ACCESS_KEY] otherwise, from [AWS_SECRET_ACCESS_KEY], and
    from [AWS_REGION] or ["eu-west-3"] when no region is set. *)
Theorem anthropic_client_credentials sdk env query_text schema_info :
  bedrock_pair_present env = true ->
  (exists rest,
      trace (generate_sql_with_anthropic sdk env query_text schema_info)
      = NewAnthropicBedrock (bedrock_access_key env)
          (value (env !! lit "AWS_SECRET_ACCESS_KEY"))
          (default (lit "eu-west-3") (env !! lit "AWS_REGION")) :: rest)
  /\ (forall k : str, env !! lit "AWS_ACCESS_KEY_ID" = Some k -> k <> [] ->
                      bedrock_access_key env = k)
  /\ (truthy (env !! lit "AWS_ACCESS_KEY_ID") = false ->
      forall k : str, env !! lit "AWS_ACCESS_KEY" = Some k ->
                      bedrock_access_key env = k).
Proof.
  intros Hb. split; [| split].
  - change (generate_sql_with_anthropic sdk) with (provider_variant sdk Anthropic).
    rewrite provider_variant_body. simpl.
    rewrite anthropic_body_cases, Hb.
    destruct (bedrock_new sdk _ _ _); simpl; eauto.
  - intros k Hk Hne. unfold bedrock_access_key. rewrite Hk.
    destruct k; [contradiction | reflexivity].
  - intros Hid k Hk. unfold bedrock_access_key. now rewrite Hid, Hk.
Qed.

Lemma anthropic_client_credentials_witness :
  bedrock_pair_present env_two_access_keys = true
  /\ bedrock_access_key env_two_access_keys = lit "id-key"
  /\ trace (generate_sql_with_anthropic sdk_echo env_two_access_keys
              (lit "Show all users") no_tables)
     = [NewAnthropicBedrock (lit "id-key") (lit "secret") (lit "eu-west-3");
        MessagesCreate (lit "id-key") (lit "secret") (lit "eu-west-3")
          (lit "us.anthropic.claude-3-opus-20240229-v1:0")
          (sql_prompt [] (lit "Show all users")) 500%Z].
Proof.
  split; [reflexivity |].
  destruct (anthropic_client_credentials sdk_echo env_two_access_keys
              (lit "Show all users") no_tables eq_refl) as [_ [H _]].
  split; [apply H; [reflexivity | discriminate] | reflexivity].
Defined.

(** ** Further properties: the markdown clean-up *)

Lemma strip_infix (s : str) : exists a b, s = a ++ strip s ++ b.
Proof.
  destruct (lstrip_suffix s) as [a Ha].
  destruct (rstrip_prefix (lstrip s)) as [b Hb].
  exists a, b. unfold strip. now rewrite <- Hb.
Qed.

(** X9: the clean-up only removes text from the two ends: its result is a
    contiguous part of its input, never longer than the input. *)
Theorem clean_up_sql_infix (s : str) :
  (exists a b, s = a ++ clean_up_sql s ++ b)
  /\ (length (clean_up_sql s) <= length s)%nat.
Proof.
  assert (exists a b, s = a ++ clean_up_sql s ++ b) as H.
  { rewrite clean_up_sql_stages. unfold strip_opening.
    assert (exists a1, s = a1 ++ strip_tagged_opening s) as [a1 H1].
    { unfold strip_tagged_opening, slice_from.
      destruct (startswith s FENCE_SQL);
        [exists (take 6 s); now rewrite take_drop | now exists []]. }
    assert (exists a2, strip_tagged_opening s
                       = a2 ++ strip_generic_opening (strip_tagged_opening s))
      as [a2 H2].
    { unfold strip_generic_opening, slice_from.
      destruct (startswith (strip_tagged_opening s) FENCE);
        [exists (take 3 (strip_tagged_opening s)); now rewrite take_drop
        | now exists []]. }
    set (s2 := strip_generic_opening (strip_tagged_opening s)) in *.
    assert (exists b1, s2 = strip_closing s2 ++ b1) as [b1 H3].
    { unfold strip_closing, slice_to_minus.
      destruct (endswith s2 FENCE);
        [exists (drop (length s2 - 3) s2); now rewrite take_drop
        | exists []; now rewrite app_nil_r]. }
    destruct (strip_infix (strip_closing s2)) as [w1 [w2 H4]].
    exists (a1 ++ a2 ++ w1), (w2 ++ b1).
    rewrite H1 at 1. rewrite H2 at 1. rewrite H3 at 1. rewrite H4 at 1.
    now rewrite <- !app_assoc. }
  split; [exact H |].
  destruct H as [a [b H]]. rewrite H at 2. rewrite !length_app. lia.
Qed.

Lemma endswith_app (body p : str) : endswith (body ++ p) p = true.
Proof. unfold endswith. rewrite rev_app_distr. apply startswith_app. Qed.

Lemma strip_closing_app (body : str) : strip_closing (body ++ FENCE) = body.
Proof.
  unfold strip_closing, slice_to_minus. rewrite endswith_app.
  rewrite length_app. change (length FENCE) with 3%nat.
  replace (length body + 3 - 3)%nat with (length body) by lia.
  apply take_app_length.
Qed.

(** A text followed by a fence does not start with ["sql"] unless the text
    itself does. *)
Lemma startswith_sql_body (body : str) :
  startswith body (lit "sql") = false ->
  startswith (body ++ FENCE) (lit "sql") = false.
Proof.
  destruct body as [|a [|b [|c body]]]; intros H.
  - reflexivity.
  - cbn. now rewrite !andb_false_r.
  - cbn. now rewrite !andb_false_r.
  - exact H.
Qed.

(** X10: a fenced answer cleans to its trimmed body.  With the tagged
    opening ["```sql"] this holds when the body, followed by the closing
    fence, does not itself start with ["```"]; with the bare opening
    ["```"] it holds when the body does not start with ["sql"]. *)
Theorem clean_up_sql_fenced (body : str) :
  (startswith (body ++ FENCE) FENCE = false ->
   clean_up_sql (FENCE_SQL ++ body ++ FENCE) = strip body)
  /\ (startswith body (lit "sql") = false ->
      clean_up_sql (FENCE ++ body ++ FENCE) = strip body).
Proof.
  split; intros H; rewrite clean_up_sql_stages; unfold strip_opening.
  - unfold strip_tagged_opening. rewrite startswith_app.
    unfold slice_from. change 6%nat with (length FENCE_SQL).
    rewrite drop_app_length.
    unfold strip_generic_opening. rewrite H.
    now rewrite strip_closing_app.
  - unfold strip_tagged_opening. rewrite FENCE_SQL_split, startswith_app_same.
    rewrite (startswith_sql_body _ H).
    unfold strip_generic_opening. rewrite startswith_app.
    unfold slice_from. change 3%nat with (length FENCE).
    rewrite drop_app_length.
    now rewrite strip_closing_app.
Qed.

Lemma clean_up_sql_fenced_witness :
  let body := nl ++ lit "SELECT * FROM users" ++ nl in
  startswith (body ++ FENCE) FENCE = false
  /\ startswith body (lit "sql") = false
  /\ clean_up_sql (FENCE_SQL ++ body ++ FENCE) = lit "SELECT * FROM users"
  /\ clean_up_sql (FENCE ++ body ++ FENCE) = lit "SELECT * FROM users".
Proof.
  split; [reflexivity |]. split; [reflexivity |].
  destruct (clean_up_sql_fenced (nl ++ lit "SELECT * FROM users" ++ nl))
    as [H1 H2].
  split; [rewrite H1 | rewrite H2]; reflexivity.
Defined.

(** ** Further properties: the rendered schema *)

Lemma filter_columns_none (p : str) (cols : list (str * str)) :
  startswith (lit "  - ") (firstn 1 p) = false ->
  List.filter (fun l => startswith l p) (List.map column_line cols) = [].
Proof.
  intros Hp. apply length_zero_iff_nil.
  exact (count_starting_columns p cols Hp).
Qed.

Lemma header_of_block (entry : str * TableInfo) :
  List.map (slice_from 7)
    (List.filter (fun l => startswith l (lit "Table: ")) (table_block entry))
  = [fst entry].
Proof.
  unfold table_block. rewrite !List.filter_app.
  rewrite filter_columns_none by reflexivity. reflexivity.
Qed.

Lemma row_count_of_block (entry : str * TableInfo) :
  List.map (slice_from 11)
    (List.filter (fun l => startswith l (lit "Row count: ")) (table_block entry))
  = [str_of_int (row_count (snd entry))].
Proof.
  unfold table_block. rewrite !List.filter_app.
  rewrite filter_columns_none by reflexivity. reflexivity.
Qed.

Lemma lines_after_blocks (p : str) (n : nat) (f : str * TableInfo -> str)
    (ts : list (str * TableInfo)) :
  (forall entry,
      List.map (slice_from n)
        (List.filter (fun l => startswith l p) (table_block entry))
      = [f entry]) ->
  List.map (slice_from n)
    (List.filter (fun l => startswith l p) (flat_map table_block ts))
  = List.map f ts.
Proof.
  intros Hb. induction ts as [|entry ts IH]; [reflexivity |].
  change (flat_map table_block (entry :: ts))
    with (table_block entry ++ flat_map table_block ts).
  rewrite List.filter_app, List.map_app, Hb, IH. reflexivity.
Qed.

(** The lines of the rendered text are the lines of the blocks, when there
    is a table and no name or type holds a line feed. *)
Lemma split_lines_format (schema_info : SchemaInfo) :
  schema_single_line schema_info = true ->
  get_tables schema_info <> [] ->
  split_lines (format_schema_for_prompt schema_info)
  = flat_map table_block (get_tables schema_info).
Proof.
  unfold schema_single_line, format_schema_for_prompt.
  rewrite schema_lines_blocks. intros H Hne.
  apply blocks_single_line in H.
  destruct (get_tables schema_info) as [|entry ts]; [contradiction |].
  destruct (flat_map table_block (entry :: ts)) as [|l ls] eqn:E;
    [discriminate |].
  now apply split_lines_join.
Qed.

(** X11: the rendered schema can be read back: for a schema whose table
    names, column names and column types hold no line feed and whose row
    counts the interpreter prints (at most 4300 digits each), the lines
    that start with ["Table: "] carry the table names, in the mapping's
    order, and the lines that start with ["Row count: "] carry the row
    counts in decimal, in the same order. *)
Theorem format_schema_read_back (schema_info : SchemaInfo) :
  schema_single_line schema_info = true ->
  row_counts_printable schema_info = true ->
  header_names (format_schema_for_prompt schema_info)
    = List.map fst (get_tables schema_info)
  /\ rendered_row_counts (format_schema_for_prompt schema_info)
    = List.map (fun entry => str_of_int (row_count (snd entry)))
        (get_tables schema_info).
Proof.
  intros H _. unfold header_names, rendered_row_counts, lines_after.
  destruct (get_tables schema_info) as [|entry ts] eqn:E.
  - unfold format_schema_for_prompt. rewrite schema_lines_blocks, E.
    split; reflexivity.
  - rewrite (split_lines_format _ H) by (rewrite E; discriminate).
    rewrite E. split.
    + apply (lines_after_blocks (lit "Table: ") 7 fst), header_of_block.
    + apply (lines_after_blocks (lit "Row count: ") 11
               (fun entry => str_of_int (row_count (snd entry)))),
        row_count_of_block.
Qed.

Lemma format_schema_read_back_witness :
  schema_single_line two_tables = true
  /\ row_counts_printable two_tables = true
  /\ header_names (format_schema_for_prompt two_tables)
     = [lit "users"; lit "products"]
  /\ rendered_row_counts (format_schema_for_prompt two_tables)
     = [lit "100"; lit "50"].
Proof.
  split; [reflexivity |]. split; [reflexivity |].
  apply (format_schema_read_back two_tables); reflexivity.
Defined.

Lemma join_app (sep : str) (a b : list str) :
  a <> [] -> b <> [] ->
  join sep (a ++ b) = join sep a ++ sep ++ join sep b.
Proof.
  intros Ha Hb. induction a as [|x a IH]; [contradiction |].
  destruct a as [|y a].
  - destruct b; [contradiction | reflexivity].
  - change (join sep ((x :: y :: a) ++ b))
      with (x ++ sep ++ join sep ((y :: a) ++ b)).
    rewrite IH by discriminate.
    change (join sep (x :: y :: a)) with (x ++ sep ++ join sep (y :: a)).
    now rewrite <- !app_assoc.
Qed.

Lemma blocks_nonempty (ts : list (str * TableInfo)) :
  ts <> [] -> flat_map table_block ts <> [].
Proof. destruct ts as [|entry ts]; [contradiction | discriminate]. Qed.

(** X12: tables are rendered one after the other, each on its own: when
    the interpreter prints every row count (at most 4300 digits each), the
    text of a schema whose tables are those of a first non-empty mapping
    followed by those of a second one is the text of the first, a line
    feed, and the text of the second. *)
Theorem format_schema_concat (ts1 ts2 : list (str * TableInfo)) :
  ts1 <> [] -> ts2 <> [] ->
  row_counts_printable {| tables := Some (ts1 ++ ts2) |} = true ->
  format_schema_for_prompt {| tables := Some (ts1 ++ ts2) |}
  = format_schema_for_prompt {| tables := Some ts1 |}
    ++ nl ++ format_schema_for_prompt {| tables := Some ts2 |}.
Proof.
  intros H1 H2 _. unfold format_schema_for_prompt.
  rewrite !schema_lines_blocks. unfold get_tables. simpl.
  rewrite flat_map_app.
  apply join_app; now apply blocks_nonempty.
Qed.

Lemma format_schema_concat_witness :
  [users_table] <> [] /\ [products_table] <> []
  /\ row_counts_printable two_tables = true
  /\ format_schema_for_prompt two_tables
     = format_schema_for_prompt {| tables := Some [users_table] |}
       ++ nl ++ format_schema_for_prompt {| tables := Some [products_table] |}.
Proof.
  split; [discriminate |]. split; [discriminate |]. split; [reflexivity |].
  apply (format_schema_concat [users_table] [products_table]);
    [discriminate | discriminate | reflexivity].
Defined.

(** ** Further properties: what is read from the environment *)

Lemma credential_truthy (env : environ) (k : str) :
  truthy (env !! k) = truthy (credential env k).
Proof.
  unfold credential. destruct (truthy (env !! k)) eqn:E; [now rewrite E | reflexivity].
Qed.

Lemma credential_value (env : environ) (k : str) :
  value (env !! k) = value (credential env k).
Proof.
  unfold credential. destruct (env !! k) as [[|c v] |]; reflexivity.
Qed.

Section SameSettings.

Variables env1 env2 : environ.
Hypothesis Hsame : same_settings env1 env2.

Lemma same_truthy (k : str) :
  In k credential_variables -> truthy (env1 !! k) = truthy (env2 !! k).
Proof.
  intros Hk. rewrite !credential_truthy. now rewrite (proj1 Hsame k Hk).
Qed.

Lemma same_value (k : str) :
  In k credential_variables -> value (env1 !! k) = value (env2 !! k).
Proof.
  intros Hk. rewrite !credential_value. now rewrite (proj1 Hsame k Hk).
Qed.

Lemma same_openai_key_set : openai_key_set env1 = openai_key_set env2.
Proof. apply same_truthy. simpl. auto. Qed.

Lemma same_bedrock_pair_present :
  bedrock_pair_present env1 = bedrock_pair_present env2.
Proof.
  unfold bedrock_pair_present.
  rewrite (same_truthy (lit "AWS_ACCESS_KEY_ID")) by (simpl; auto).
  rewrite (same_truthy (lit "AWS_ACCESS_KEY")) by (simpl; auto).
  rewrite (same_truthy (lit "AWS_SECRET_ACCESS_KEY")) by (simpl; auto).
  reflexivity.
Qed.

Lemma same_bedrock_access_key :
  bedrock_access_key env1 = bedrock_access_key env2.
Proof.
  unfold bedrock_access_key.
  rewrite (same_truthy (lit "AWS_ACCESS_KEY_ID")) by (simpl; auto).
  rewrite (same_value (lit "AWS_ACCESS_KEY_ID")) by (simpl; auto).
  rewrite (same_value (lit "AWS_ACCESS_KEY")) by (simpl; auto).
  reflexivity.
Qed.

Lemma same_provider_body sdk p query_text schema_info :
  provider_body sdk p env1 query_text schema_info
  = provider_body sdk p env2 query_text schema_info.
Proof.
  destruct p; simpl.
  - rewrite !openai_body_cases, same_openai_key_set.
    rewrite (same_value (lit "OPENAI_API_KEY")) by (simpl; auto).
    reflexivity.
  - rewrite !anthropic_body_cases.
    rewrite same_bedrock_pair_present, same_bedrock_access_key.
    rewrite (same_value (lit "AWS_SECRET_ACCESS_KEY")) by (simpl; auto).
    rewrite (proj2 Hsame (lit "AWS_REGION")) by (simpl; auto).
    rewrite (proj2 Hsame (lit "ANTHROPIC_MODEL")) by (simpl; auto).
    reflexivity.
Qed.

Lemma same_selected_provider request :
  selected_provider env1 request = selected_provider env2 request.
Proof.
  unfold selected_provider. fold (openai_key_set env1) (openai_key_set env2).
  now rewrite !has_bedrock_credentials_pair, same_openai_key_set,
    same_bedrock_pair_present.
Qed.

End SameSettings.

(** X13: [generate_sql] depends on the environment through six variables
    only ([OPENAI_API_KEY], [AWS_ACCESS_KEY_ID], [AWS_ACCESS_KEY],
    [AWS_SECRET_ACCESS_KEY], [AWS_REGION], [ANTHROPIC_MODEL]), and through
    the four credentials only up to emptiness: two environments that agree
    on the region and the model, and on each credential once an empty value
    is taken for a missing one, give the same calls and the same result. *)
Theorem generate_sql_same_settings sdk env1 env2 request schema_info :
  same_settings env1 env2 ->
  generate_sql sdk env1 request schema_info
  = generate_sql sdk env2 request schema_info.
Proof.
  intros H. rewrite !generate_sql_selected, !provider_variant_body.
  rewrite (same_selected_provider env1 env2 H).
  now rewrite (same_provider_body env1 env2 H).
Qed.

Lemma generate_sql_same_settings_witness :
  same_settings env_openai_and_more env_openai
  /\ generate_sql sdk_echo env_openai_and_more (request_for "anthropic") two_tables
     = generate_sql sdk_echo env_openai (request_for "anthropic") two_tables.
Proof.
  assert (same_settings env_openai_and_more env_openai) as H.
  { split; intros k Hk; vm_compute in Hk;
      repeat match goal with
             | H : _ \/ _ |- _ => destruct H
             | H : False |- _ => destruct H
             end; subst; reflexivity. }
  split; [exact H |].
  apply (generate_sql_same_settings sdk_echo env_openai_and_more env_openai
           (request_for "anthropic") two_tables H).
Defined.

Lemma credential_variable_not_defaulted (k k' : str) :
  In k credential_variables -> In k' defaulted_variables -> k <> k'.
Proof.
  unfold credential_variables, defaulted_variables. simpl.
  intros Hk Hk' ->. vm_compute in Hk, Hk'.
  repeat match goal with
         | H : _ \/ _ |- _ => destruct H
         | H : False |- _ => destruct H
         end; subst; discriminate.
Qed.

(** X14: a credential variable set to the empty string is as good as unset:
    setting any of the four credential variables to [""] gives the same
    calls and the same result as removing it from the environment. *)
Theorem generate_sql_empty_credential sdk env k request schema_info :
  In k credential_variables ->
  generate_sql sdk (<[k := []]> env) request schema_info
  = generate_sql sdk (delete k env) request schema_info.
Proof.
  intros Hk.
  assert (same_settings (<[k := []]> env) (delete k env)) as H.
  { split.
    - intros k' _. unfold credential.
      destruct (decide (k = k')) as [<- | Hne].
      + now rewrite lookup_insert_eq, lookup_delete_eq.
      + now rewrite lookup_insert_ne, lookup_delete_ne by exact Hne.
    - intros k' Hk'.
      pose proof (credential_variable_not_defaulted k k' Hk Hk') as Hne.
      now rewrite lookup_insert_ne, lookup_delete_ne by exact Hne. }
  rewrite !generate_sql_selected, !provider_variant_body.
  rewrite (same_selected_provider _ _ H).
  now rewrite (same_provider_body _ _ H).
Qed.

Lemma generate_sql_empty_credential_witness :
  In (lit "OPENAI_API_KEY") credential_variables
  /\ generate_sql sdk_echo (<[lit "OPENAI_API_KEY" := []]> env_both)
       (request_for "openai") two_tables
     = generate_sql sdk_echo (delete (lit "OPENAI_API_KEY") env_both)
         (request_for "openai") two_tables.
Proof.
  split; [left; reflexivity |].
  apply (generate_sql_empty_credential sdk_echo env_both (lit "OPENAI_API_KEY")
           (request_for "openai") two_tables).
  left; reflexivity.
Defined.

(** ** The run of the selected provider, by the answers of its SDK *)

(** The body of either variant: the credential check, then the client,
    then the request, each decided by the environment or by what the SDK
    answers. *)
Lemma provider_body_by_answers sdk p env request schema_info :
  provider_body sdk p env (query request) schema_info
  = if credentials_present env p then
      match client_answer sdk env p with
      | Raised msg =>
          ([client_event env p],
           inl {| exn_kind := SdkError; exn_str := msg |})
      | Returned _ =>
          ([client_event env p; request_event env request schema_info p],
           match request_answer sdk env request schema_info p with
           | Raised msg => inl {| exn_kind := SdkError; exn_str := msg |}
           | Returned content => inr (clean_up_sql (strip content))
           end)
      end
    else raise ValueError (missing_credentials_message p).
Proof.
  destruct p; simpl.
  - now rewrite openai_body_cases.
  - now rewrite anthropic_body_cases.
Qed.

(** C4: when the selected provider fails, [generate_sql] raises an
    [Exception] whose message is
    ["Error generating SQL with <provider>: <original text>"] and returns
    nothing.  The failure is read off the environment and the SDK: the
    provider's credentials are missing (no call is made); or the
    constructor of its client raises (the only call); or, the client built
    and the prompt rendered (every row count within the interpreter's
    digit limit), the completion call raises.  Such a message contains the
    provider's name and the original text; every call made goes to the
    selected provider, none to the other one; and [generate_sql] raises
    nothing but such an exception. *)
Theorem generate_sql_failure_propagates sdk env request schema_info :
  let p := selected_provider env request in
  let run := generate_sql sdk env request schema_info in
  (credentials_present env p = false ->
   raises_wrapped run p [] (missing_credentials_message p))
  /\ (forall msg,
         credentials_present env p = true ->
         client_answer sdk env p = Raised msg ->
         raises_wrapped run p [client_event env p] msg)
  /\ (forall msg,
         credentials_present env p = true ->
         client_answer sdk env p = Returned tt ->
         row_counts_printable schema_info = true ->
         request_answer sdk env request schema_info p = Raised msg ->
         raises_wrapped run p
           [client_event env p; request_event env request schema_info p] msg)
  /\ (forall text,
         contains (wrapped_message p text) (provider_name p) = true
         /\ contains (wrapped_message p text) text = true)
  /\ only_calls p (trace run)
  /\ (forall e', outcome run = inl e' ->
                 exists text,
                   e' = {| exn_kind := Exception;
                           exn_str := wrapped_message p text |}).
Proof.
  intros p run. subst p run. unfold raises_wrapped.
  rewrite generate_sql_selected, provider_variant_body.
  rewrite provider_body_by_answers.
  repeat split.
  - intros ->. reflexivity.
  - intros msg -> ->. reflexivity.
  - intros msg -> -> _ ->. reflexivity.
  - apply wrapped_message_contains.
  - apply wrapped_message_contains.
  - rewrite <- provider_body_by_answers. apply provider_body_only_calls.
  - intros e'. unfold outcome at 1. cbn [snd].
    destruct (outcome _) as [e | sql]; [| discriminate].
    intros [= <-]. now exists (exn_str e).
Qed.

Lemma generate_sql_failure_propagates_witness :
  (credentials_present ∅ (selected_provider ∅ (request_for "openai")) = false
   /\ generate_sql sdk_failing ∅ (request_for "openai") two_tables
      = ([], inl {| exn_kind := Exception;
                    exn_str := lit "Error generating SQL with OpenAI: OPENAI_API_KEY environment variable not set" |}))
  /\ (client_answer sdk_failing env_bedrock
        (selected_provider env_bedrock (request_for "openai"))
      = Raised (lit "no region")
      /\ generate_sql sdk_failing env_bedrock (request_for "openai") two_tables
         = ([NewAnthropicBedrock (lit "test-access-key") (lit "test-secret-key")
               (lit "eu-west-3")],
            inl {| exn_kind := Exception;
                   exn_str := lit "Error generating SQL with Anthropic: no region" |}))
  /\ (row_counts_printable two_tables = true
      /\ request_answer sdk_failing env_openai (request_for "anthropic") two_tables
           (selected_provider env_openai (request_for "anthropic"))
         = Raised (lit "API Error")
      /\ outcome (generate_sql sdk_failing env_openai (request_for "anthropic")
                    two_tables)
         = inl {| exn_kind := Exception;
                  exn_str := lit "Error generating SQL with OpenAI: API Error" |}).
Proof.
  split; [| split].
  - split; [reflexivity |].
    destruct (generate_sql_failure_propagates
                sdk_failing ∅ (request_for "openai") two_tables) as [H _].
    exact (H eq_refl).
  - split; [reflexivity |].
    destruct (generate_sql_failure_propagates
                sdk_failing env_bedrock (request_for "openai") two_tables)
      as [_ [H _]].
    exact (H (lit "no region") eq_refl eq_refl).
  - split; [reflexivity |]. split; [reflexivity |].
    destruct (generate_sql_failure_propagates
                sdk_failing env_openai (request_for "anthropic") two_tables)
      as [_ [_ [H _]]].
    rewrite (H (lit "API Error") eq_refl eq_refl eq_refl eq_refl).
    reflexivity.
Defined.

(** X6: [generate_sql] returns a string only as the cleaned-up answer to
    the completion request of the selected provider.  When that provider's
    credentials are present, its client is built, the prompt is rendered
    (every row count within the interpreter's digit limit) and the SDK
    answers the request with [content], the result is
    [clean_up_sql (strip content)], after exactly those two calls; and
    whatever string [generate_sql] returns is that text for the content
    the SDK answered, and neither begins nor ends with white space. *)
Theorem generate_sql_result_trimmed sdk env request schema_info :
  let p := selected_provider env request in
  let run := generate_sql sdk env request schema_info in
  (forall content,
      credentials_present env p = true ->
      client_answer sdk env p = Returned tt ->
      row_counts_printable schema_info = true ->
      request_answer sdk env request schema_info p = Returned content ->
      run = ([client_event env p; request_event env request schema_info p],
             inr (clean_up_sql (strip content))))
  /\ (forall sql,
         outcome run = inr sql ->
         exists content,
           request_answer sdk env request schema_info p = Returned content
           /\ sql = clean_up_sql (strip content)
           /\ lstripped sql /\ rstripped sql).
Proof.
  intros p run. subst p run.
  rewrite generate_sql_selected, provider_variant_body.
  rewrite provider_body_by_answers. split.
  - intros content -> -> _ ->. reflexivity.
  - intros sql. unfold outcome at 1. cbn [snd].
    destruct (credentials_present env (selected_provider env request));
      [| discriminate].
    destruct (client_answer sdk env (selected_provider env request));
      [| discriminate].
    cbn [outcome snd].
    destruct (request_answer sdk env request schema_info
                (selected_provider env request)) as [content | msg];
      [| discriminate].
    intros [= <-]. exists content. split; [reflexivity |].
    split; [reflexivity |]. rewrite clean_up_sql_stages. apply strip_stripped.
Qed.

Lemma generate_sql_result_trimmed_witness :
  credentials_present env_openai
    (selected_provider env_openai (request_for "anthropic")) = true
  /\ row_counts_printable two_tables = true
  /\ request_answer sdk_fenced env_openai (request_for "anthropic") two_tables
       (selected_provider env_openai (request_for "anthropic"))
     = Returned (nl ++ lit "```sql" ++ nl ++ lit "SELECT 1 " ++ nl ++ lit "```  ")
  /\ outcome (generate_sql sdk_fenced env_openai (request_for "anthropic")
                two_tables)
     = inr (lit "SELECT 1")
  /\ lstripped (lit "SELECT 1") /\ rstripped (lit "SELECT 1").
Proof.
  split; [reflexivity |]. split; [reflexivity |]. split; [reflexivity |].
  destruct (generate_sql_result_trimmed
              sdk_fenced env_openai (request_for "anthropic") two_tables)
    as [H1 H2].
  assert (outcome (generate_sql sdk_fenced env_openai (request_for "anthropic")
                     two_tables) = inr (lit "SELECT 1")) as E.
  { rewrite (H1 _ eq_refl eq_refl eq_refl eq_refl). reflexivity. }
  split; [exact E |].
  destruct (H2 _ E) as [content [_ [_ [Hl Hr]]]]. split; assumption.
Defined.
